(** * Hapuss: collaborator bootstrap and secret provisioning scripts

    Shallow embedding of [src/setup_collaborators.py] and
    [src/auto_secrets.py].  Every HTTP request the scripts issue is recorded
    in a trace; the GitHub API is a [World] oracle answering the n-th request
    of a run.  Python exceptions are an explicit error result. *)

From Stdlib Require Import String Ascii List ZArith Bool Lia.
Import ListNotations.
Open Scope list_scope.
Open Scope string_scope.
Set Warnings "-register-all".

(** ** Python values decoded from JSON *)

(** [JNull] is both JSON [null] and Python [None]. *)
Inductive json : Type :=
| JNull
| JBool (b : bool)
| JNum (z : Z)
| JStr (s : string)
| JList (l : list json)
| JObj (kv : list (string * json)).

(** Python truthiness of a decoded value. *)
Definition truthy (v : json) : bool :=
  match v with
  | JNull => false
  | JBool b => b
  | JNum z => negb (Z.eqb z 0)
  | JStr s => negb (String.eqb s "")
  | JList l => negb (Nat.eqb (length l) 0)
  | JObj kv => negb (Nat.eqb (length kv) 0)
  end.

Definition is_list (v : json) : bool :=
  match v with JList _ => true | _ => false end.

(** Python exceptions that can escape the code. *)
Inductive exn : Type :=
| IndexError
| AttributeError
| KeyError
| TypeError
| ValueError            (* json decoding, base64, key length *)
| TransportError        (* requests.Timeout / ConnectionError *)
| SystemExit (code : nat).

(** [json.loads] keeps the last binding of a duplicated key. *)
Fixpoint obj_lookup (k : string) (kv : list (string * json)) : option json :=
  match kv with
  | [] => None
  | (k', v) :: rest =>
      match obj_lookup k rest with
      | Some w => Some w
      | None => if String.eqb k k' then Some v else None
      end
  end.

(** ** Requests, responses, trace *)

Record request : Type := mkRequest {
  rq_token : string;        (* the credential in the Authorization header *)
  rq_method : string;       (* HTTP verb actually sent *)
  rq_url : string;
  rq_body : option json     (* the [json=] payload *)
}.

Record http_response : Type := mkResponse {
  rs_status : Z;
  rs_text : string;
  rs_json : option json;    (* [resp.json()]; [None] when the text is not JSON *)
  rs_headers : list (string * string)
}.

Inductive response : Type :=
| Transport                 (* timeout or connection failure *)
| Http (r : http_response).

Inductive event : Type :=
| ENet (rq : request)
| ESleep (ms : nat).

(** The host: its answer to the n-th request of the run. *)
Record World : Type := mkWorld {
  w_srv : nat -> request -> response;
  (** [SealedBox(PublicKey(key_bytes)).encrypt(plaintext)] then base64; [None]
      when PyNaCl rejects the key. *)
  w_seal : string -> string -> option string
}.

Fixpoint net_count (tr : list event) : nat :=
  match tr with
  | [] => 0
  | ENet _ :: rest => S (net_count rest)
  | ESleep _ :: rest => net_count rest
  end.

(** ** A state and exception monad over the trace *)

Inductive res (A : Type) : Type :=
| Ok (a : A)
| Err (e : exn).
Arguments Ok {A} a.
Arguments Err {A} e.

Definition M (A : Type) : Type := World -> list event -> res A * list event.

Definition ret {A} (a : A) : M A := fun _ tr => (Ok a, tr).
Definition raise {A} (e : exn) : M A := fun _ tr => (Err e, tr).
Definition bind {A B} (m : M A) (k : A -> M B) : M B :=
  fun w tr => match m w tr with
              | (Ok a, tr') => k a w tr'
              | (Err e, tr') => (Err e, tr')
              end.

Notation "x <- m ;; k" := (bind m (fun x => k))
  (at level 61, m at next level, right associativity).
Notation "m ;;; k" := (bind m (fun _ => k))
  (at level 61, right associativity).

(** [time.sleep] *)
Definition sleep (ms : nat) : M unit := fun _ tr => (Ok tt, (tr ++ [ESleep ms])%list).

(** Issue one request: it is recorded, and the host answers it. *)
Definition send (rq : request) : M response :=
  fun w tr => (Ok (w_srv w (net_count tr) rq), (tr ++ [ENet rq])%list).

(** [requests.get/put(...)] without a [try]: a transport failure raises. *)
Definition requests_call (rq : request) : M http_response :=
  r <- send rq ;;
  match r with
  | Transport => raise TransportError
  | Http h => ret h
  end.

(** [resp.json()] outside a [try] *)
Definition resp_json (h : http_response) : M json :=
  match rs_json h with Some v => ret v | None => raise ValueError end.

Fixpoint forM_ {A} (l : list A) (f : A -> M unit) : M unit :=
  match l with
  | [] => ret tt
  | x :: xs => f x ;;; forM_ xs f
  end.

Fixpoint mapM {A B} (f : A -> M B) (l : list A) : M (list B) :=
  match l with
  | [] => ret []
  | x :: xs => y <- f x ;; ys <- mapM f xs ;; ret (y :: ys)
  end.

(** [try: ... except Exception: ...]: every exception but [SystemExit]. *)
Definition try_except {A} (m : M A) (h : exn -> M A) : M A :=
  fun w tr => match m w tr with
              | (Err e, tr') =>
                  match e with
                  | SystemExit _ => (Err e, tr')
                  | _ => h e w tr'
                  end
              | r => r
              end.

(** ** String helpers *)

Fixpoint zdigits (fuel : nat) (z : Z) (acc : string) : string :=
  match fuel with
  | O => acc
  | S f =>
      let acc' := String (ascii_of_nat (48 + Z.to_nat (z mod 10))) acc in
      if Z.ltb z 10 then acc' else zdigits f (z / 10) acc'
  end.

(** [str(int)] *)
Definition z_to_string (z : Z) : string :=
  match z with
  | Z0 => "0"
  | Zpos p => zdigits (Pos.size_nat p) z ""
  | Zneg p => "-" ++ zdigits (Pos.size_nat p) (Zpos p) ""
  end.

Definition nat_to_string (n : nat) : string := z_to_string (Z.of_nat n).

(** [repr] of a decoded value (quotes inside strings are not escaped). *)
Fixpoint py_repr (v : json) : string :=
  match v with
  | JNull => "None"
  | JBool true => "True"
  | JBool false => "False"
  | JNum z => z_to_string z
  | JStr s => "'" ++ s ++ "'"
  | JList l =>
      "[" ++ (fix go (l : list json) : string :=
                match l with
                | [] => ""
                | [x] => py_repr x
                | x :: r => py_repr x ++ ", " ++ go r
                end) l ++ "]"
  | JObj kv =>
      "{" ++ (fix go (kv : list (string * json)) : string :=
                match kv with
                | [] => ""
                | [(k, x)] => "'" ++ k ++ "': " ++ py_repr x
                | (k, x) :: r => "'" ++ k ++ "': " ++ py_repr x ++ ", " ++ go r
                end) kv ++ "}"
  end.

(** [str(v)], as used by an f-string *)
Definition py_str (v : json) : string :=
  match v with JStr s => s | _ => py_repr v end.

Fixpoint has_char (c : ascii) (s : string) : bool :=
  match s with
  | EmptyString => false
  | String d rest => Ascii.eqb c d || has_char c rest
  end.

Definition lower_ascii (c : ascii) : ascii :=
  let n := nat_of_ascii c in
  if Nat.leb 65 n && Nat.leb n 90 then ascii_of_nat (n + 32) else c.

Fixpoint lower (s : string) : string :=
  match s with
  | EmptyString => EmptyString
  | String c rest => String (lower_ascii c) (lower rest)
  end.

(** [s.split(", ")] *)
Fixpoint split_comma_space (s : string) : list string :=
  match s with
  | EmptyString => [""]
  | String c rest =>
      let cons_head := fun (l : list string) =>
        match l with
        | h :: t => String c h :: t
        | [] => [String c ""]
        end in
      match rest with
      | String d rest' =>
          if Ascii.eqb c "," && Ascii.eqb d " "
          then "" :: split_comma_space rest'
          else cons_head (split_comma_space rest)
      | EmptyString => [String c ""]
      end
  end.

(** [resp.headers.get(name, default)]: a case-insensitive lookup. *)
Fixpoint header_get (hs : list (string * string)) (name default : string) : string :=
  match hs with
  | [] => default
  | (k, v) :: rest =>
      if String.eqb (lower k) (lower name) then v else header_get rest name default
  end.

(** ** Configuration read from the environment *)

Record Config : Type := mkConfig {
  env_admin_username : string;        (* os.getenv("ADMIN_USERNAME", "") *)
  env_target_repo : string;           (* os.getenv("TARGET_REPO", "") *)
  env_pat : nat -> option string;     (* os.getenv(f"PAT{i}") *)
  env_username : nat -> option string (* os.getenv(f"USERNAME{i}") *)
}.

(** Python truthiness of [os.getenv(...)] *)
Definition set_var (o : option string) : bool :=
  match o with Some s => negb (String.eqb s "") | None => false end.

Definition present (get : nat -> option string) (i : nat) : list string :=
  match get i with
  | Some s => if String.eqb s "" then [] else [s]
  | None => []
  end.

(** [[os.getenv(f"X{i}") for i in range(1, 21) if os.getenv(f"X{i}")]] *)
Definition getenv_list (get : nat -> option string) : list string :=
  flat_map (present get) (seq 1 20).

Definition TARGET_REPO (cfg : Config) : string :=
  let r := env_target_repo cfg in
  if String.eqb r "" || negb (has_char "/" r)
  then env_admin_username cfg ++ "/hapus"
  else r.

(** ** [src/setup_collaborators.py] *)
Module Collab.

(** [TOKENS] and [USERS] of the collaborator script: two lists filtered
    independently. *)
Definition TOKENS (cfg : Config) : list string := getenv_list (env_pat cfg).
Definition USERS (cfg : Config) : list string := getenv_list (env_username cfg).

(** [GitHubClient(token).call(endpoint, method, data)] *)
Definition call (token endpoint method : string) (data : option json) : M json :=
  let url := "https://api.github.com" ++ endpoint in
  let rq :=
    if String.eqb method "POST" then mkRequest token "POST" url data
    else if String.eqb method "PUT" then mkRequest token "PUT" url data
    else if String.eqb method "PATCH" then mkRequest token "PATCH" url data
    else mkRequest token "GET" url None in
  r <- send rq ;;
  match r with
  | Transport => ret JNull                         (* except Exception: return None *)
  | Http h =>
      if existsb (Z.eqb (rs_status h)) [200; 201; 204]%Z then
        if String.eqb (rs_text h) "" then ret (JObj [])
        else match rs_json h with
             | Some v => ret v
             | None => ret JNull                   (* decode error, caught *)
             end
      else ret JNull
  end.

(** [obj.get(key, default)]: only a dict has [.get]. *)
Definition py_get (o : json) (key : string) (default : json) : M json :=
  match o with
  | JObj kv => match obj_lookup key kv with Some v => ret v | None => ret default end
  | _ => raise AttributeError
  end.

Definition invite_endpoint (repo u : string) : string :=
  "/repos/" ++ repo ++ "/collaborators/" ++ u.

Definition invitations_endpoint : string := "/user/repository_invitations".

Definition accept_endpoint (invite_id : json) : string :=
  "/user/repository_invitations/" ++ py_str invite_id.

Definition invite_body : json := JObj [("permission", JStr "push")].

(** Step 1, the loop over [USERS[1:]] *)
Definition invite_phase (admin_token repo : string) (users : list string) : M unit :=
  forM_ users (fun u =>
    if String.eqb u "" then ret tt
    else _result <- call admin_token (invite_endpoint repo u) "PUT" (Some invite_body) ;;
         sleep 800).

Definition name_is (v : json) (repo : string) : bool :=
  match v with JStr s => String.eqb s repo | _ => false end.

(** [for invite in invitations: ...] with its [break]; the result is the
    [accepted] flag. *)
Fixpoint scan_invites (t repo : string) (l : list json) : M bool :=
  match l with
  | [] => ret false
  | invite :: rest =>
      r <- py_get invite "repository" (JObj []) ;;
      repo_name <- py_get r "full_name" JNull ;;
      if name_is repo_name repo then
        invite_id <- py_get invite "id" JNull ;;
        result <- call t (accept_endpoint invite_id) "PATCH" None ;;
        match result with
        | JNull => ret false
        | _ => ret true
        end
      else scan_invites t repo rest
  end.

Inductive status : Type := Accepted | Stuck.

Definition list_items (v : json) : list json :=
  match v with JList l => l | _ => [] end.

(** One iteration of Step 2, for [(u, t)]; [None] when skipped. *)
Definition accept_member (repo : string) (ut : string * string)
  : M (option (string * status)) :=
  let (u, t) := ut in
  if String.eqb u "" || String.eqb t "" then ret None
  else
    invitations <- call t invitations_endpoint "GET" None ;;
    if negb (truthy invitations) || negb (is_list invitations)
    then ret (Some (u, Stuck))                     (* continue *)
    else
      accepted <- scan_invites t repo (list_items invitations) ;;
      sleep 800 ;;;
      ret (Some (u, if accepted then Accepted else Stuck)).

Definition accept_phase (repo : string) (pairs : list (string * string))
  : M (list (option (string * status))) :=
  mapM (accept_member repo) pairs.

Definition setup_collaborators (cfg : Config) : M (list (option (string * status))) :=
  let users := USERS cfg in
  let tokens := TOKENS cfg in
  let repo := TARGET_REPO cfg in
  admin_token <- match tokens with t :: _ => ret t | [] => raise IndexError end ;;
  invite_phase admin_token repo (tl users) ;;;
  sleep 5000 ;;;
  accept_phase repo (combine (tl users) (tl tokens)).

(** [if __name__ == "__main__": setup_collaborators()], from an empty trace *)
Definition main (cfg : Config) (w : World) : res (list (option (string * status))) * list event :=
  setup_collaborators cfg w [].

End Collab.

(** ** [src/auto_secrets.py] *)
Module Secrets.

(** [ADMIN_TOKEN = os.getenv("PAT1")] *)
Definition ADMIN_TOKEN (cfg : Config) : option string := env_pat cfg 1.

(** [TOKENS[f"PAT{i}"] = token] for every set [PATi], in insertion order *)
Definition TOKENS (cfg : Config) : list (string * string) :=
  flat_map (fun i => map (fun s => ("PAT" ++ nat_to_string i, s)) (present (env_pat cfg) i))
           (seq 1 20).

Definition public_key_url (repo : string) : string :=
  "https://api.github.com/repos/" ++ repo ++ "/actions/secrets/public-key".

Definition secret_url (repo name : string) : string :=
  "https://api.github.com/repos/" ++ repo ++ "/actions/secrets/" ++ name.

Definition user_url : string := "https://api.github.com/user".

Definition get_public_key (repo token : string) : M json :=
  resp <- requests_call (mkRequest token "GET" (public_key_url repo) None) ;;
  if Z.eqb (rs_status resp) 200 then resp_json resp
  else ret JNull.

(** [obj[key]] *)
Definition py_getitem (o : json) (key : string) : M json :=
  match o with
  | JObj kv => match obj_lookup key kv with Some v => ret v | None => raise KeyError end
  | _ => raise TypeError
  end.

(** [encrypt_secret]: base64-decode the key, seal with PyNaCl's [SealedBox],
    base64-encode; the sealing itself is the world's [w_seal]. *)
Definition encrypt_secret (public_key : json) (secret_value : string) : M string :=
  fun w tr =>
    match public_key with
    | JStr k => match w_seal w k secret_value with
                | Some c => (Ok c, tr)
                | None => (Err ValueError, tr)
                end
    | _ => (Err TypeError, tr)
    end.

Definition create_or_update_secret (repo token secret_name secret_value : string) : M bool :=
  key_data <- get_public_key repo token ;;
  if negb (truthy key_data) then ret false
  else
    key <- py_getitem key_data "key" ;;
    encrypted_value <- encrypt_secret key secret_value ;;
    key_id <- py_getitem key_data "key_id" ;;
    let data := JObj [("encrypted_value", JStr encrypted_value); ("key_id", key_id)] in
    resp <- requests_call (mkRequest token "PUT" (secret_url repo secret_name) (Some data)) ;;
    ret (existsb (Z.eqb (rs_status resp)) [201; 204]%Z).

(** The loop of [setup_secrets]; the per-entry ✅/❌ it prints is returned. *)
Definition setup_secrets (repo admin_token : string) (tokens : list (string * string))
  : M (list (string * bool)) :=
  mapM (fun nv =>
          ok <- create_or_update_secret repo admin_token (fst nv) (snd nv) ;;
          ret (fst nv, ok))
       tokens.

Definition success_count (outcomes : list (string * bool)) : nat :=
  length (filter snd outcomes).

Definition failed (outcomes : list (string * bool)) : list string :=
  map fst (filter (fun o => negb (snd o)) outcomes).

Definition scopes_of (resp : http_response) : list string :=
  split_comma_space (header_get (rs_headers resp) "X-OAuth-Scopes" "").

Definition check_permissions (admin_token : string) : M bool :=
  resp <- requests_call (mkRequest admin_token "GET" user_url None) ;;
  if negb (Z.eqb (rs_status resp) 200) then ret false
  else
    let scopes := scopes_of resp in
    let missing := filter (fun s => negb (existsb (String.eqb s) scopes)) ["repo"; "workflow"] in
    match missing with
    | [] => ret true
    | _ :: _ => ret false
    end.

(** The script from its module-level checks to its [__main__] block.  The
    result is [Some outcomes] when [setup_secrets] ran to its end and [None]
    when the [except Exception] handler printed an error. *)
Definition main (cfg : Config) (w : World)
  : res (option (list (string * bool))) * list event :=
  if negb (set_var (ADMIN_TOKEN cfg)) then (Err (SystemExit 1), [])
  else
    let admin_token := match ADMIN_TOKEN cfg with Some t => t | None => "" end in
    let repo := TARGET_REPO cfg in
    let tokens := TOKENS cfg in
    match tokens with
    | [] => (Err (SystemExit 1), [])
    | _ :: _ =>
        try_except
          (ok <- check_permissions admin_token ;;
           if ok then outcomes <- setup_secrets repo admin_token tokens ;; ret (Some outcomes)
           else raise (SystemExit 1))
          (fun _ => ret None) w []
    end.

End Secrets.

(** ** [encrypt_secret] with the sealed box as a primitive

    The steps of [encrypt_secret] around PyNaCl's [SealedBox]: the
    base64-decoding of the key, the 32-byte check of [PublicKey], the UTF-8
    encoding of the value and the base64-encoding of the ciphertext.  The box
    is a parameter [seal] with its randomness [r]; a Python [str] is its list
    of code points, [bytes] a list of integers.  [Secrets.encrypt_secret]
    receives the result of this function, for the box's draw, as the world's
    [w_seal]. *)
Module Seal.


(** The base64 alphabet: the character of a sextet. *)
Definition b64_char (v : Z) : ascii :=
  if (v <? 26)%Z then ascii_of_nat (65 + Z.to_nat v)
  else if (v <? 52)%Z then ascii_of_nat (97 + Z.to_nat (v - 26))
  else if (v <? 62)%Z then ascii_of_nat (48 + Z.to_nat (v - 52))
  else if (v =? 62)%Z then "+"%char else "/"%char.

(** The sextet of a character of the alphabet. *)
Definition b64_val (c : ascii) : option Z :=
  let n := nat_of_ascii c in
  if Nat.leb 65 n && Nat.leb n 90 then Some (Z.of_nat n - 65)%Z
  else if Nat.leb 97 n && Nat.leb n 122 then Some (Z.of_nat n - 71)%Z
  else if Nat.leb 48 n && Nat.leb n 57 then Some (Z.of_nat n + 4)%Z
  else if Nat.eqb n 43 then Some 62%Z
  else if Nat.eqb n 47 then Some 63%Z
  else None.

Fixpoint b64enc (l : list Z) : list ascii :=
  match l with
  | a :: b :: c :: rest =>
      b64_char (a / 4) :: b64_char ((a mod 4) * 16 + b / 16)
      :: b64_char ((b mod 16) * 4 + c / 64) :: b64_char (c mod 64) :: b64enc rest
  | [a; b] =>
      [b64_char (a / 4); b64_char ((a mod 4) * 16 + b / 16); b64_char ((b mod 16) * 4); "="%char]
  | [a] => [b64_char (a / 4); b64_char ((a mod 4) * 16); "="%char; "="%char]
  | [] => []
  end%Z.

(** [base64.b64encode(data).decode("utf-8")] *)
Definition b64encode (l : list Z) : string := string_of_list_ascii (b64enc l).

Fixpoint b64dec (l : list ascii) : option (list Z) :=
  match l with
  | [] => Some []
  | c1 :: c2 :: c3 :: c4 :: rest =>
      match b64_val c1, b64_val c2 with
      | Some s0, Some s1 =>
          if Ascii.eqb c3 "=" then
            if Ascii.eqb c4 "=" then
              match rest with [] => Some [s0 * 4 + s1 / 16] | _ => None end
            else None
          else
            match b64_val c3 with
            | None => None
            | Some s2 =>
                if Ascii.eqb c4 "=" then
                  match rest with
                  | [] => Some [s0 * 4 + s1 / 16; (s1 mod 16) * 16 + s2 / 4]
                  | _ => None
                  end
                else
                  match b64_val c4 with
                  | None => None
                  | Some s3 =>
                      match b64dec rest with
                      | Some t => Some ((s0 * 4 + s1 / 16) :: ((s1 mod 16) * 16 + s2 / 4)
                                        :: ((s2 mod 4) * 64 + s3) :: t)
                      | None => None
                      end
                  end
            end
      | _, _ => None
      end
  | _ => None
  end%Z.

Definition b64_keep (c : ascii) : bool :=
  match b64_val c with Some _ => true | None => Ascii.eqb c "=" end.

(** [base64.b64decode(s)]: characters outside the alphabet are discarded;
    [None] is the [binascii.Error] of a bad padding. *)
Definition b64decode (s : string) : option (list Z) :=
  b64dec (filter b64_keep (list_ascii_of_string s)).

(** [str.encode("utf-8")] of one code point; [None] for a surrogate
    ([UnicodeEncodeError]). *)
Definition utf8_encode_cp (cp : Z) : option (list Z) :=
  if (cp <? 0)%Z then None
  else if (cp <? 128)%Z then Some [cp]
  else if (cp <? 2048)%Z then Some [192 + cp / 64; 128 + cp mod 64]%Z
  else if (55296 <=? cp)%Z && (cp <=? 57343)%Z then None
  else if (cp <? 65536)%Z then
    Some [224 + (cp / 64) / 64; 128 + (cp / 64) mod 64; 128 + cp mod 64]%Z
  else if (cp <? 1114112)%Z then
    Some [240 + ((cp / 64) / 64) / 64; 128 + ((cp / 64) / 64) mod 64;
          128 + (cp / 64) mod 64; 128 + cp mod 64]%Z
  else None.

Fixpoint utf8_encode (s : list Z) : option (list Z) :=
  match s with
  | [] => Some []
  | cp :: rest =>
      match utf8_encode_cp cp, utf8_encode rest with
      | Some b, Some t => Some (b ++ t)%list
      | _, _ => None
      end
  end.



(** [encrypt_secret(public_key, secret_value)] for a sealed box [seal]
    drawing the randomness [r]; [None] for the exceptions it can raise. *)
Definition encrypt_secret {R : Type} (seal : list Z -> list Z -> R -> list Z) (r : R)
  (public_key : string) (secret_value : list Z) : option string :=
  match b64decode public_key with
  | None => None                                   (* binascii.Error *)
  | Some public_key_bytes =>
      if Nat.eqb (length public_key_bytes) 32 then  (* PublicKey(...) *)
        match utf8_encode secret_value with
        | None => None                             (* UnicodeEncodeError *)
        | Some m => Some (b64encode (seal public_key_bytes m r))
        end
      else None                                    (* nacl ValueError *)
  end.



End Seal.

(** ** Concrete configurations and hosts *)
Module Sample.

Definition opt_of (l : list (nat * string)) (i : nat) : option string :=
  match find (fun p => Nat.eqb (fst p) i) l with Some (_, s) => Some s | None => None end.

(** PAT1..PAT3 set, USERNAME1 and USERNAME3 set, USERNAME2 unset. *)
Definition cfg_gap : Config :=
  mkConfig "admin" "admin/hapus"
           (opt_of [(1, "t1"); (2, "t2"); (3, "t3")])
           (opt_of [(1, "admin"); (3, "carol")]).

(** PAT1, PAT2 and USERNAME1, USERNAME2 set. *)
Definition cfg_two : Config :=
  mkConfig "admin" "admin/hapus"
           (opt_of [(1, "t1"); (2, "t2")])
           (opt_of [(1, "admin"); (2, "bob")]).

Definition resp (st : Z) (text : string) (body : option json) : response :=
  Http (mkResponse st text body []).

Definition target_invite : json :=
  JObj [("id", JNum 7); ("repository", JObj [("full_name", JStr "admin/hapus")])].

Definition key_obj : json := JObj [("key", JStr "a2V5"); ("key_id", JStr "k1")].

Definition seal_demo (k v : string) : option string := Some ("sealed:" ++ v).

(** A host where every call goes through; the upsert answers [put_status],
    the identity call grants [scopes]. *)
Definition srv_ok (put_status : Z) (scopes : string) (n : nat) (rq : request) : response :=
  if String.eqb (rq_url rq) Secrets.user_url then
    Http (mkResponse 200 "{}" (Some (JObj [])) [("X-OAuth-Scopes", scopes)])
  else if String.eqb (rq_url rq) (Secrets.public_key_url "admin/hapus") then
    resp 200 "{...}" (Some key_obj)
  else if String.eqb (rq_method rq) "PUT" then
    if String.eqb (rq_url rq) ("https://api.github.com" ++ Collab.invite_endpoint "admin/hapus" "bob")
       || String.eqb (rq_url rq) ("https://api.github.com" ++ Collab.invite_endpoint "admin/hapus" "carol")
    then resp 201 "{}" (Some (JObj []))
    else resp put_status "" None
  else if String.eqb (rq_method rq) "PATCH" then resp 204 "" None
  else resp 200 "[...]" (Some (JList [target_invite])).

Definition w_ok : World := mkWorld (srv_ok 201 "repo, workflow") seal_demo.

(** The same host, but the admin token lacks the [workflow] scope. *)
Definition w_noscope : World := mkWorld (srv_ok 201 "repo") seal_demo.

(** The same host, but the secret upsert answers 200. *)
Definition w_put200 : World := mkWorld (srv_ok 200 "repo, workflow") seal_demo.


(** The same host, except that the n-th request fails in transport. *)
Definition w_transient (k : nat) : World :=
  mkWorld (fun n rq => if Nat.eqb n k then Transport else srv_ok 201 "repo, workflow" n rq)
          seal_demo.

(** PAT1, PAT2 set, only USERNAME1 set: no member besides the admin. *)
Definition cfg_solo : Config :=
  mkConfig "admin" "admin/hapus"
           (opt_of [(1, "t1"); (2, "t2")])
           (opt_of [(1, "admin")]).

(** PAT1, PAT2 and USERNAME1..USERNAME3 set: carol has no token. *)
Definition cfg_extra_user : Config :=
  mkConfig "admin" "admin/hapus"
           (opt_of [(1, "t1"); (2, "t2")])
           (opt_of [(1, "admin"); (2, "bob"); (3, "carol")]).

(** The host [w_ok], except that the public-key GET is answered [r]. *)
Definition w_keyresp (r : response) : World :=
  mkWorld (fun n rq =>
             if String.eqb (rq_url rq) (Secrets.public_key_url "admin/hapus") then r
             else srv_ok 201 "repo, workflow" n rq)
          seal_demo.




End Sample.

(** ** Trace predicates *)

(** From here on [++] is list concatenation; string concatenation is
    written [(_ ++ _)%string]. *)
Open Scope list_scope.

(** [m] only appends events satisfying [P] to the trace. *)
Definition appends (P : event -> Prop) {A} (m : M A) : Prop :=
  forall w tr, exists post, snd (m w tr) = tr ++ post /\ Forall P post.

Definition api_base : string := "https://api.github.com".

(** The trace of Step 1 for the members [us]. *)
Definition invite_trace (admin_token repo : string) (us : list string) : list event :=
  flat_map (fun u =>
              if String.eqb u "" then []
              else [ENet (mkRequest admin_token "PUT" (api_base ++ Collab.invite_endpoint repo u)%string
                                    (Some Collab.invite_body));
                    ESleep 800])
           us.

(** An event of Step 2: a pause, the invitation-list GET, or an accept PATCH. *)
Definition accept_event (e : event) : Prop :=
  match e with
  | ESleep _ => True
  | ENet rq =>
      rq_url rq = (api_base ++ Collab.invitations_endpoint)%string
      \/ exists id, rq_url rq = (api_base ++ Collab.accept_endpoint id)%string
  end.

(** Any request but the identity call [GET /user] of the preflight. *)
Definition not_preflight (e : event) : Prop :=
  match e with
  | ENet rq => rq_url rq <> Secrets.user_url
  | ESleep _ => True
  end.

Definition preflight_request (tok : string) : request :=
  mkRequest tok "GET" Secrets.user_url None.

(** The admin token the secret script uses once [PAT1] passed its check. *)
Definition secrets_admin_token (cfg : Config) : string :=
  match Secrets.ADMIN_TOKEN cfg with Some t => t | None => "" end.



Definition invite_id (v : json) : json :=
  match v with
  | JObj kv => match obj_lookup "id" kv with Some i => i | None => JNull end
  | _ => JNull
  end.


(** The statuses [GitHubClient.call] accepts. *)
Definition success_statuses : list Z := [200; 201; 204]%Z.

(** The name [f"PAT{i}"] of a secret. *)
Definition pat_name (i : nat) : string := ("PAT" ++ nat_to_string i)%string.

(** The public-key GET of [get_public_key]. *)
Definition key_request (tok repo : string) : request :=
  mkRequest tok "GET" (Secrets.public_key_url repo) None.

(** The upsert PUT of [create_or_update_secret], carrying the sealed value
    [c] and the key id [kid]. *)
Definition upsert_request (tok repo name c : string) (kid : json) : request :=
  mkRequest tok "PUT" (Secrets.secret_url repo name)
            (Some (JObj [("encrypted_value", JStr c); ("key_id", kid)])).

(** [c] and [kid] are the sealed value and the key id of the upsert of
    [create_or_update_secret] whose public-key GET was the [n]-th request:
    that GET was answered 200 with an object holding [key] (a string [k])
    and [key_id] ([kid]), and [c] is [v] sealed with [k]. *)
Definition sealed_upload (w : World) (n : nat) (tok repo v c : string) (kid : json) : Prop :=
  exists h kv k,
    w_srv w n (key_request tok repo) = Http h /\ rs_status h = 200%Z
    /\ rs_json h = Some (JObj kv) /\ obj_lookup "key" kv = Some (JStr k)
    /\ obj_lookup "key_id" kv = Some kid /\ w_seal w k v = Some c.

(** A request the secret script may send in the world [w]: the preflight,
    the public-key GET of the target repository, or the upsert PUT of one of
    its secrets, all with the admin token; an upsert carries that secret's
    value sealed with the key of a 200 answer of the host to a public-key
    GET, and that answer's key id.  The script never sleeps. *)
Definition secret_script_event (w : World) (cfg : Config) (e : event) : Prop :=
  let tok := secrets_admin_token cfg in
  let repo := TARGET_REPO cfg in
  match e with
  | ESleep _ => False
  | ENet rq =>
      rq = preflight_request tok
      \/ rq = key_request tok repo
      \/ exists name value c kid n,
            In (name, value) (Secrets.TOKENS cfg) /\ sealed_upload w n tok repo value c kid
            /\ rq = upsert_request tok repo name c kid
  end.

(** [m], run in the world [w], only appends events satisfying [P]. *)
Definition appends_at (w : World) (P : event -> Prop) {A} (m : M A) : Prop :=
  forall tr, exists post, snd (m w tr) = tr ++ post /\ Forall P post.

(** [m] raises only exceptions satisfying [Q]. *)
Definition raises_only (Q : exn -> Prop) {A} (m : M A) : Prop :=
  forall w tr e, fst (m w tr) = Err e -> Q e.

(** Any exception but a [SystemExit] with a code other than 1. *)
Definition exit_one (e : exn) : Prop :=
  match e with SystemExit n => n = 1 | _ => True end.

(** ** Traces: what a computation appends *)

Section Appends.

Variable P : event -> Prop.

Lemma appends_ret {A} (a : A) : appends P (ret a).
Proof. intros w tr; exists []; rewrite app_nil_r; auto. Qed.

Lemma appends_raise {A} (e : exn) : appends P (@raise A e).
Proof. intros w tr; exists []; rewrite app_nil_r; auto. Qed.

Lemma appends_bind {A B} (m : M A) (k : A -> M B) :
  appends P m -> (forall a, appends P (k a)) -> appends P (bind m k).
Proof.
  intros Hm Hk w tr. unfold bind.
  destruct (Hm w tr) as [post1 [E1 F1]].
  destruct (m w tr) as [[a|e] tr1] eqn:Em; simpl in E1; subst tr1.
  - destruct (Hk a w (tr ++ post1)) as [post2 [E2 F2]].
    exists (post1 ++ post2). rewrite E2, app_assoc. split; auto.
    apply Forall_app; auto.
  - exists post1; auto.
Qed.

Lemma appends_sleep ms : P (ESleep ms) -> appends P (sleep ms).
Proof. intros HP w tr; exists [ESleep ms]; auto. Qed.

Lemma appends_forM_ {A} (l : list A) (f : A -> M unit) :
  (forall x, In x l -> appends P (f x)) -> appends P (forM_ l f).
Proof.
  induction l as [|x l IH]; intros Hf; simpl.
  - apply appends_ret.
  - apply appends_bind; [apply Hf; left; auto|].
    intros _; apply IH; intros; apply Hf; right; auto.
Qed.

Lemma appends_mapM {A B} (f : A -> M B) (l : list A) :
  (forall x, In x l -> appends P (f x)) -> appends P (mapM f l).
Proof.
  induction l as [|x l IH]; intros Hf; simpl.
  - apply appends_ret.
  - apply appends_bind; [apply Hf; left; auto|].
    intros y; apply appends_bind; [apply IH; intros; apply Hf; right; auto|].
    intros; apply appends_ret.
Qed.

End Appends.

Section AppendsAt.

Variable w : World.
Variable P : event -> Prop.

Lemma appends_at_of {A} (m : M A) : appends P m -> appends_at w P m.
Proof. intros H tr. exact (H w tr). Qed.

Lemma appends_at_bind {A B} (m : M A) (k : A -> M B) :
  appends_at w P m -> (forall a, appends_at w P (k a)) -> appends_at w P (bind m k).
Proof.
  intros Hm Hk tr. unfold bind.
  destruct (Hm tr) as [post1 [E1 F1]].
  destruct (m w tr) as [[a|e] tr1]; cbn [snd] in E1; subst tr1.
  - destruct (Hk a (tr ++ post1)) as [post2 [E2 F2]].
    exists (post1 ++ post2). rewrite E2, app_assoc. split; auto.
    apply Forall_app; auto.
  - exists post1; auto.
Qed.

Lemma appends_at_mapM {A B} (f : A -> M B) (l : list A) :
  (forall x, In x l -> appends_at w P (f x)) -> appends_at w P (mapM f l).
Proof.
  induction l as [|x l IH]; intros Hf; cbn [mapM].
  - apply appends_at_of, appends_ret.
  - apply appends_at_bind; [apply Hf; left; auto|].
    intros y; apply appends_at_bind; [apply IH; intros; apply Hf; right; auto|].
    intros; apply appends_at_of, appends_ret.
Qed.

Lemma appends_at_try_except {A} (m : M A) (h : exn -> M A) :
  appends_at w P m -> (forall e, appends_at w P (h e)) -> appends_at w P (try_except m h).
Proof.
  intros Hm Hh tr. unfold try_except.
  destruct (Hm tr) as [post1 [E1 F1]].
  destruct (m w tr) as [[a|e] tr1]; cbn [snd] in E1; subst tr1; [exists post1; auto|].
  destruct (Hh e (tr ++ post1)) as [post2 [E2 F2]].
  destruct e; try (exists post1; auto; fail);
  (exists (post1 ++ post2); rewrite E2, app_assoc; split; [reflexivity|apply Forall_app; auto]).
Qed.

End AppendsAt.

Lemma call_shape t e m d w tr :
  exists v rq, Collab.call t e m d w tr = (Ok v, tr ++ [ENet rq])
          /\ rq_token rq = t /\ rq_url rq = (api_base ++ e)%string.
Proof.
  unfold Collab.call, bind, send.
  destruct (String.eqb m "POST"), (String.eqb m "PUT"), (String.eqb m "PATCH");
  match goal with
  | |- context [w_srv w ?n ?rq] =>
      destruct (w_srv w n rq) as [|h];
      [| destruct (existsb (Z.eqb (rs_status h)) [200; 201; 204]%Z); [destruct (String.eqb (rs_text h) ""); [|destruct (rs_json h)]|]]
  end; simpl; do 2 eexists; repeat split; reflexivity.
Qed.

Lemma appends_call (P : event -> Prop) t e m d :
  (forall rq, rq_token rq = t -> rq_url rq = (api_base ++ e)%string -> P (ENet rq)) ->
  appends P (Collab.call t e m d).
Proof.
  intros HP w tr. destruct (call_shape t e m d w tr) as [v [rq [E [Ht Hu]]]].
  rewrite E. exists [ENet rq]; simpl; auto.
Qed.

Lemma call_put t e d w tr :
  exists v, Collab.call t e "PUT" d w tr
            = (Ok v, (tr ++ [ENet (mkRequest t "PUT" (api_base ++ e) d)])%list).
Proof.
  unfold Collab.call, bind, send; simpl.
  destruct (w_srv w _ _) as [|h]; [unfold ret; eexists; reflexivity|].
  repeat match goal with
         | |- context [if ?b then _ else _] => destruct b
         | |- context [match ?x with Some _ => _ | None => _ end] => destruct x
         end; unfold ret; eexists; reflexivity.
Qed.

Lemma appends_py_get P o k d : appends P (Collab.py_get o k d).
Proof.
  unfold Collab.py_get. destruct o; try apply appends_raise.
  destruct (obj_lookup k kv); apply appends_ret.
Qed.

Lemma invite_phase_trace t repo us w tr :
  Collab.invite_phase t repo us w tr = (Ok tt, tr ++ invite_trace t repo us).
Proof.
  unfold Collab.invite_phase, invite_trace.
  revert tr; induction us as [|u us IH]; intros tr; cbn [forM_ flat_map].
  - rewrite app_nil_r; reflexivity.
  - unfold bind at 1. destruct (String.eqb u "").
    + apply IH.
    + unfold bind. destruct (call_put t (Collab.invite_endpoint repo u) (Some Collab.invite_body) w tr)
        as [v E]. rewrite E. unfold sleep. rewrite IH, <- !app_assoc. reflexivity.
Qed.

Lemma appends_scan_invites t repo l :
  appends accept_event (Collab.scan_invites t repo l).
Proof.
  induction l as [|inv l IH]; simpl.
  - apply appends_ret.
  - apply appends_bind; [apply appends_py_get|]; intros r.
    apply appends_bind; [apply appends_py_get|]; intros name.
    destruct (Collab.name_is name repo); [|apply IH].
    apply appends_bind; [apply appends_py_get|]; intros id.
    apply appends_bind.
    + apply appends_call. intros rq _ Hu. right. exists id. exact Hu.
    + intros [| | | | |]; apply appends_ret.
Qed.

Lemma appends_accept_phase repo pairs :
  appends accept_event (Collab.accept_phase repo pairs).
Proof.
  apply appends_mapM. intros [u t] _. unfold Collab.accept_member.
  destruct (String.eqb u "" || String.eqb t ""); [apply appends_ret|].
  apply appends_bind.
  - apply appends_call. intros rq _ Hu. left. exact Hu.
  - intros invs. destruct (negb (truthy invs) || negb (is_list invs)); [apply appends_ret|].
    apply appends_bind; [apply appends_scan_invites|]; intros acc.
    apply appends_bind; [apply appends_sleep; exact I|]; intros _; apply appends_ret.
Qed.

Lemma collab_main_trace cfg w :
  match Collab.TOKENS cfg with
  | [] => snd (Collab.main cfg w) = []
  | t :: _ =>
      exists post,
        snd (Collab.main cfg w)
        = invite_trace t (TARGET_REPO cfg) (tl (Collab.USERS cfg)) ++ ESleep 5000 :: post
        /\ Forall accept_event post
  end.
Proof.
  unfold Collab.main, Collab.setup_collaborators.
  destruct (Collab.TOKENS cfg) as [|t ts]; [reflexivity|].
  unfold bind at 1, ret at 1; cbv beta iota.
  unfold bind at 1. rewrite invite_phase_trace.
  unfold bind, sleep. simpl tl at 2. rewrite app_nil_l.
  destruct (appends_accept_phase (TARGET_REPO cfg) (combine (tl (Collab.USERS cfg)) ts) w
              (invite_trace t (TARGET_REPO cfg) (tl (Collab.USERS cfg)) ++ [ESleep 5000]))
    as [post [E F]].
  exists post. rewrite E, <- app_assoc. split; auto.
Qed.

(** C7: Step 2 of the collaborator bootstrap starts only after Step 1 has
    sent the invitation of every member and a fixed 5 s pause has followed;
    every request after the pause belongs to Step 2 (the invitation-list
    GET or an accept PATCH).  Without any token the run stops before any
    request. *)
Theorem collab_accept_after_invites cfg w :
  match Collab.TOKENS cfg with
  | [] => snd (Collab.main cfg w) = []
  | t :: _ =>
      exists post,
        snd (Collab.main cfg w)
        = invite_trace t (TARGET_REPO cfg) (tl (Collab.USERS cfg)) ++ ESleep 5000 :: post
        /\ Forall accept_event post
  end.
Proof. exact (collab_main_trace cfg w). Qed.

(** C10: [GitHubClient.call] with any method other than POST, PUT and PATCH
    (DELETE, a misspelled "get", ...) does exactly what a GET call does:
    it sends a GET to the endpoint, without body, and handles its answer as
    a GET's. *)
Theorem call_other_method_is_get t e m d w tr :
  m <> "POST" -> m <> "PUT" -> m <> "PATCH" ->
  Collab.call t e m d w tr = Collab.call t e "GET" None w tr
  /\ snd (Collab.call t e m d w tr)
     = tr ++ [ENet (mkRequest t "GET" (api_base ++ e)%string None)].
Proof.
  intros H1 H2 H3.
  apply String.eqb_neq in H1, H2, H3.
  assert (E : Collab.call t e m d w tr = Collab.call t e "GET" None w tr)
    by (unfold Collab.call; rewrite H1, H2, H3; reflexivity).
  split; [exact E|]. rewrite E.
  unfold Collab.call, bind, send; cbn [String.eqb Ascii.eqb Bool.eqb andb].
  destruct (w_srv w _ _) as [|h]; [reflexivity|].
  repeat match goal with
         | |- context [if ?b then _ else _] => destruct b
         | |- context [match ?x with Some _ => _ | None => _ end] => destruct x
         end; reflexivity.
Qed.

Lemma call_other_method_is_get_witness :
  "DELETE" <> "POST" /\ "DELETE" <> "PUT" /\ "DELETE" <> "PATCH" /\
  snd (Collab.call "t1" "/user" "DELETE" None Sample.w_ok [])
  = [ENet (mkRequest "t1" "GET" "https://api.github.com/user" None)].
Proof.
  assert (H1 : "DELETE" <> "POST") by discriminate.
  assert (H2 : "DELETE" <> "PUT") by discriminate.
  assert (H3 : "DELETE" <> "PATCH") by discriminate.
  split; [exact H1|]. split; [exact H2|]. split; [exact H3|].
  exact (proj2 (call_other_method_is_get "t1" "/user" "DELETE" None Sample.w_ok [] H1 H2 H3)).
Defined.

(** C1: in the collaborator bootstrap, the accept phase pairs [USERS[1:]]
    and [TOKENS[1:]] by position, after each list was filtered on its own.
    With [USERNAME2] unset, the member [carol] (USERNAME3, whose credential
    is PAT3 = "t3") reads and accepts her invitation with PAT2 = "t2". *)
Theorem collab_gap_accepts_with_other_token :
  Sample.cfg_gap.(env_username) 3 = Some "carol" /\
  Sample.cfg_gap.(env_pat) 3 = Some "t3" /\
  Collab.main Sample.cfg_gap Sample.w_ok =
  (Ok [Some ("carol", Collab.Accepted)],
   [ENet (mkRequest "t1" "PUT" "https://api.github.com/repos/admin/hapus/collaborators/carol"
                    (Some Collab.invite_body));
    ESleep 800; ESleep 5000;
    ENet (mkRequest "t2" "GET" "https://api.github.com/user/repository_invitations" None);
    ENet (mkRequest "t2" "PATCH" "https://api.github.com/user/repository_invitations/7" None);
    ESleep 800]).
Proof. repeat split; vm_compute; reflexivity. Qed.

Lemma string_app_cancel (p a b : string) :
  (p ++ a)%string = (p ++ b)%string -> a = b.
Proof. induction p as [|c p IH]; simpl; [auto|]. intros H; injection H; auto. Qed.

Lemma user_url_split : Secrets.user_url = (api_base ++ "/user")%string.
Proof. reflexivity. Qed.

Lemma invite_trace_not_preflight t repo us :
  Forall not_preflight (invite_trace t repo us).
Proof.
  unfold invite_trace. induction us as [|u us IH]; cbn [flat_map]; [constructor|].
  apply Forall_app; split; [|exact IH].
  destruct (String.eqb u ""); repeat constructor.
  cbn [not_preflight rq_url]. rewrite user_url_split. intros H. apply string_app_cancel in H.
  simpl in H. discriminate H.
Qed.

Lemma accept_event_not_preflight e : accept_event e -> not_preflight e.
Proof.
  destruct e as [rq|ms]; cbn [accept_event not_preflight]; [|auto].
  intros [H | [id H]]; rewrite H, user_url_split; intros E;
    apply string_app_cancel in E; simpl in E; discriminate E.
Qed.

Lemma collab_main_not_preflight cfg w :
  Forall not_preflight (snd (Collab.main cfg w)).
Proof.
  pose proof (collab_main_trace cfg w) as H.
  destruct (Collab.TOKENS cfg) as [|t ts].
  - rewrite H; constructor.
  - destruct H as [post [E F]]. rewrite E.
    apply Forall_app; split; [apply invite_trace_not_preflight|].
    constructor; [exact I|]. eapply Forall_impl; [apply accept_event_not_preflight|exact F].
Qed.

Lemma check_permissions_trace tok w tr :
  snd (Secrets.check_permissions tok w tr) = tr ++ [ENet (preflight_request tok)]
  /\ (fst (Secrets.check_permissions tok w tr) = Ok true
      \/ fst (Secrets.check_permissions tok w tr) = Ok false
      \/ fst (Secrets.check_permissions tok w tr) = Err TransportError).
Proof.
  unfold Secrets.check_permissions, requests_call, bind, send.
  destruct (w_srv w _ _) as [|h]; simpl; [auto|].
  destruct (negb (Z.eqb (rs_status h) 200)); simpl; [auto|].
  match goal with |- context [match ?l with [] => _ | _ :: _ => _ end] => destruct l end;
    simpl; auto.
Qed.

(** C2 (amended): the preflight gates the secret script only.  When [PAT1]
    is unset or empty, or the preflight does not answer [True], the secret
    script sends no request but the preflight's own [GET /user]; the
    collaborator script never runs the preflight (no [GET /user] in any of
    its runs), and without any token it stops before any request. *)
Theorem preflight_gates_secret_script_only cfg w :
  ((set_var (Secrets.ADMIN_TOKEN cfg) = false
    \/ fst (Secrets.check_permissions (secrets_admin_token cfg) w []) <> Ok true) ->
   snd (Secrets.main cfg w) = []
   \/ snd (Secrets.main cfg w) = [ENet (preflight_request (secrets_admin_token cfg))])
  /\ Forall not_preflight (snd (Collab.main cfg w))
  /\ (Collab.TOKENS cfg = [] -> snd (Collab.main cfg w) = []).
Proof.
  split; [|split].
  - intros Hpre. unfold Secrets.main.
    destruct (set_var (Secrets.ADMIN_TOKEN cfg)) eqn:Hset; [|left; reflexivity].
    destruct Hpre as [Hpre|Hpre]; [discriminate Hpre|].
    fold (secrets_admin_token cfg). simpl negb; cbv iota.
    destruct (Secrets.TOKENS cfg); [left; reflexivity|].
    right. unfold try_except, bind.
    destruct (check_permissions_trace (secrets_admin_token cfg) w []) as [Etr Eres].
    destruct (Secrets.check_permissions (secrets_admin_token cfg) w []) as [r tr1].
    simpl in Etr, Eres, Hpre. subst tr1.
    destruct Eres as [E|[E|E]]; subst r; [congruence|reflexivity|reflexivity].
  - apply collab_main_not_preflight.
  - intros Ht. pose proof (collab_main_trace cfg w) as H. rewrite Ht in H. exact H.
Qed.

Lemma preflight_gates_secret_script_only_witness :
  fst (Secrets.check_permissions "t1" Sample.w_noscope []) <> Ok true /\
  (snd (Secrets.main Sample.cfg_two Sample.w_noscope) = []
   \/ snd (Secrets.main Sample.cfg_two Sample.w_noscope) = [ENet (preflight_request "t1")]).
Proof.
  assert (H : fst (Secrets.check_permissions "t1" Sample.w_noscope []) <> Ok true)
    by (vm_compute; discriminate).
  split; [exact H|].
  exact (proj1 (preflight_gates_secret_script_only Sample.cfg_two Sample.w_noscope) (or_intror H)).
Defined.

(** C2 (as stated) fails: for an admin token whose preflight answers
    [False] (no [workflow] scope), the collaborator script still sends its
    invitation [PUT] with that token. *)
Lemma collab_invites_despite_failing_preflight :
  fst (Secrets.check_permissions "t1" Sample.w_noscope []) = Ok false /\
  In (ENet (mkRequest "t1" "PUT" "https://api.github.com/repos/admin/hapus/collaborators/bob"
                      (Some Collab.invite_body)))
     (snd (Collab.main Sample.cfg_two Sample.w_noscope)).
Proof. split; vm_compute; [reflexivity | left; reflexivity]. Qed.

Lemma existsb_eqb_In (s : string) (l : list string) :
  existsb (String.eqb s) l = true <-> In s l.
Proof.
  rewrite existsb_exists. split.
  - intros [x [Hx E]]. apply String.eqb_eq in E. subst; exact Hx.
  - intros H. exists s; split; [exact H | apply String.eqb_refl].
Qed.

(** C6: for an answer [h] of the identity call, the preflight returns
    [True] exactly when the status is 200 and both [repo] and [workflow]
    are among the [", "]-separated scopes of the [X-OAuth-Scopes] header;
    otherwise (status not 200, [workflow] or [repo] missing) it returns
    [False]. *)
Theorem preflight_requires_repo_and_workflow tok w tr h :
  w_srv w (net_count tr) (preflight_request tok) = Http h ->
  exists b, fst (Secrets.check_permissions tok w tr) = Ok b
    /\ (b = true <-> (rs_status h = 200%Z
                      /\ In "repo" (Secrets.scopes_of h)
                      /\ In "workflow" (Secrets.scopes_of h))).
Proof.
  intros Hh. unfold Secrets.check_permissions, requests_call, bind, send.
  change (mkRequest tok "GET" Secrets.user_url None) with (preflight_request tok).
  rewrite Hh. cbv beta iota zeta delta [ret].
  destruct (Z.eqb (rs_status h) 200) eqn:Est; simpl negb; cbv iota.
  - apply Z.eqb_eq in Est.
    pose proof (existsb_eqb_In "repo" (Secrets.scopes_of h)) as R1.
    pose proof (existsb_eqb_In "workflow" (Secrets.scopes_of h)) as R2.
    remember (Secrets.scopes_of h) as sc eqn:Esc. cbv zeta. cbn [filter].
    destruct (existsb (String.eqb "repo") sc) eqn:E1;
    destruct (existsb (String.eqb "workflow") sc) eqn:E2;
    cbn [negb]; eexists; (split; [reflexivity|]); intuition congruence.
  - apply Z.eqb_neq in Est. exists false; split; [reflexivity|].
    split; [discriminate | intros [H _]; contradiction].
Qed.

Lemma preflight_requires_repo_and_workflow_witness :
  w_srv Sample.w_ok (net_count []) (preflight_request "t1")
  = Http (mkResponse 200 "{}" (Some (JObj [])) [("X-OAuth-Scopes", "repo, workflow")]) /\
  exists b, fst (Secrets.check_permissions "t1" Sample.w_ok []) = Ok b
    /\ (b = true <-> (200%Z = 200%Z
                      /\ In "repo" ["repo"; "workflow"]
                      /\ In "workflow" ["repo"; "workflow"])).
Proof.
  assert (H : w_srv Sample.w_ok (net_count []) (preflight_request "t1")
              = Http (mkResponse 200 "{}" (Some (JObj [])) [("X-OAuth-Scopes", "repo, workflow")]))
    by (vm_compute; reflexivity).
  split; [exact H|].
  exact (preflight_requires_repo_and_workflow "t1" Sample.w_ok [] _ H).
Defined.

(** C3: a transport failure of the public-key GET in the secret script is
    not caught: [create_or_update_secret] raises it, and the run ends in the
    [__main__] handler right after the first key fetch. *)
Theorem key_fetch_transport_failure_escapes :
  fst (Secrets.create_or_update_secret "admin/hapus" "t1" "PAT1" "t1"
         (Sample.w_transient 1) [ENet (preflight_request "t1")]) = Err TransportError /\
  Secrets.main Sample.cfg_two (Sample.w_transient 1)
  = (Ok None,
     [ENet (preflight_request "t1");
      ENet (mkRequest "t1" "GET" (Secrets.public_key_url "admin/hapus") None)]).
Proof. split; vm_compute; reflexivity. Qed.

(** C5: with secrets PAT1 and PAT2 and a transport failure on the first key
    fetch, the loop of [setup_secrets] raises, PAT2 is never attempted (no
    request names it) and no entry gets an outcome. *)
Theorem secret_batch_stops_at_transport_failure :
  Secrets.TOKENS Sample.cfg_two = [("PAT1", "t1"); ("PAT2", "t2")] /\
  fst (Secrets.setup_secrets "admin/hapus" "t1" (Secrets.TOKENS Sample.cfg_two)
         (Sample.w_transient 1) [ENet (preflight_request "t1")]) = Err TransportError /\
  snd (Secrets.main Sample.cfg_two (Sample.w_transient 1))
  = [ENet (preflight_request "t1");
     ENet (mkRequest "t1" "GET" (Secrets.public_key_url "admin/hapus") None)] /\
  fst (Secrets.main Sample.cfg_two (Sample.w_transient 1)) = Ok None.
Proof. repeat split; vm_compute; reflexivity. Qed.

Lemma net_count_app_net tr rq : net_count (tr ++ [ENet rq]) = S (net_count tr).
Proof. induction tr as [|[] tr IH]; simpl; auto. Qed.

Lemma call_eq t e m d w tr :
  exists rq, rq_url rq = (api_base ++ e)%string /\ rq_token rq = t /\
    Collab.call t e m d w tr =
    (match w_srv w (net_count tr) rq with
     | Transport => Ok JNull
     | Http h =>
         if existsb (Z.eqb (rs_status h)) success_statuses then
           if String.eqb (rs_text h) "" then Ok (JObj [])
           else Ok (match rs_json h with Some v => v | None => JNull end)
         else Ok JNull
     end, tr ++ [ENet rq]).
Proof.
  unfold Collab.call, bind, send. cbv zeta.
  destruct (String.eqb m "POST"), (String.eqb m "PUT"), (String.eqb m "PATCH"); cbv iota;
  match goal with |- context [w_srv w (net_count tr) ?r] => exists r end;
  (split; [reflexivity|]; split; [reflexivity|];
   destruct (w_srv _ _ _) as [|h]; [reflexivity|];
   cbv beta iota; unfold success_statuses;
   destruct (existsb (Z.eqb (rs_status h)) [200; 201; 204]%Z); [|reflexivity];
   destruct (String.eqb (rs_text h) ""); [reflexivity|]; destruct (rs_json h); reflexivity).
Qed.

Lemma existsb_Zeqb_In (z : Z) (l : list Z) : existsb (Z.eqb z) l = true <-> In z l.
Proof.
  rewrite existsb_exists. split.
  - intros [x [Hx E]]. apply Z.eqb_eq in E. subst; exact Hx.
  - intros H. exists z; split; [exact H | apply Z.eqb_refl].
Qed.

(** C4 (amended): [GitHubClient.call] of the collaborator script returns the
    decoded body (the empty mapping when the body text is empty) when the
    status is 200, 201 or 204, and [None] otherwise (other status, transport
    failure, or a body that does not decode).  The secret script does not use
    it: its public-key GET returns the decoded body only on status 200 and
    [None] on any other status, and its upsert PUT reports a boolean that is
    true only for status 201 or 204. *)
Theorem http_success_rules :
  (forall t e m d w tr, exists rq,
     rq_url rq = (api_base ++ e)%string /\
     snd (Collab.call t e m d w tr) = tr ++ [ENet rq] /\
     (w_srv w (net_count tr) rq = Transport -> fst (Collab.call t e m d w tr) = Ok JNull) /\
     (forall h, w_srv w (net_count tr) rq = Http h ->
        (In (rs_status h) success_statuses -> rs_text h = "" ->
         fst (Collab.call t e m d w tr) = Ok (JObj [])) /\
        (In (rs_status h) success_statuses -> rs_text h <> "" -> forall v, rs_json h = Some v ->
         fst (Collab.call t e m d w tr) = Ok v) /\
        (In (rs_status h) success_statuses -> rs_text h <> "" -> rs_json h = None ->
         fst (Collab.call t e m d w tr) = Ok JNull) /\
        (~ In (rs_status h) success_statuses -> fst (Collab.call t e m d w tr) = Ok JNull)))
  /\
  (forall repo tok w tr h,
     w_srv w (net_count tr) (mkRequest tok "GET" (Secrets.public_key_url repo) None) = Http h ->
     (rs_status h = 200%Z -> forall v, rs_json h = Some v ->
      fst (Secrets.get_public_key repo tok w tr) = Ok v) /\
     (rs_status h <> 200%Z -> fst (Secrets.get_public_key repo tok w tr) = Ok JNull))
  /\
  (forall repo tok name value w tr hk kv k kid c h,
     w_srv w (net_count tr) (mkRequest tok "GET" (Secrets.public_key_url repo) None) = Http hk ->
     rs_status hk = 200%Z -> rs_json hk = Some (JObj kv) ->
     obj_lookup "key" kv = Some (JStr k) -> obj_lookup "key_id" kv = Some kid ->
     w_seal w k value = Some c ->
     w_srv w (S (net_count tr))
       (mkRequest tok "PUT" (Secrets.secret_url repo name)
          (Some (JObj [("encrypted_value", JStr c); ("key_id", kid)]))) = Http h ->
     fst (Secrets.create_or_update_secret repo tok name value w tr)
     = Ok (Z.eqb (rs_status h) 201 || Z.eqb (rs_status h) 204)).
Proof.
  split; [|split].
  - intros t e m d w tr.
    destruct (call_eq t e m d w tr) as [rq [Hu [_ E]]]. rewrite E. clear E.
    exists rq. split; [exact Hu|]. split; [reflexivity|].
    destruct (w_srv w (net_count tr) rq) as [|h] eqn:Hs.
    + split; [reflexivity|]. intros h' Hh'; discriminate Hh'.
    + split; [intros E; discriminate E|].
      intros h' E. injection E as <-. cbn [fst].
      repeat split.
      * intros Hin Ht. apply existsb_Zeqb_In in Hin; unfold success_statuses in *; rewrite Hin, Ht. reflexivity.
      * intros Hin Ht v Hv. apply existsb_Zeqb_In in Hin; unfold success_statuses in *; rewrite Hin, Hv.
        apply String.eqb_neq in Ht. rewrite Ht. reflexivity.
      * intros Hin Ht Hv. apply existsb_Zeqb_In in Hin; unfold success_statuses in *; rewrite Hin, Hv.
        apply String.eqb_neq in Ht. rewrite Ht. reflexivity.
      * intros Hin. destruct (existsb (Z.eqb (rs_status h)) success_statuses) eqn:Hb;
        [apply existsb_Zeqb_In in Hb; contradiction | reflexivity].
  - intros repo tok w tr h Hh.
    unfold Secrets.get_public_key, requests_call, bind, send. rewrite Hh.
    cbv beta iota zeta delta [ret]. split.
    + intros E v Hv. rewrite E. simpl. unfold resp_json. rewrite Hv. reflexivity.
    + intros E. apply Z.eqb_neq in E. rewrite E. reflexivity.
  - intros repo tok name value w tr hk kv k kid c h Hk Hst Hj Hkey Hkid Hseal Hput.
    unfold Secrets.create_or_update_secret, Secrets.get_public_key, requests_call, bind, send.
    rewrite Hk. cbv beta iota zeta delta [ret]. rewrite Hst, Z.eqb_refl. cbv beta iota.
    unfold resp_json. rewrite Hj. cbv beta iota delta [ret].
    assert (Hne : truthy (JObj kv) = true).
    { destruct kv; [discriminate Hkey|reflexivity]. }
    rewrite Hne. cbv beta iota delta [negb ret].
    unfold Secrets.py_getitem. rewrite Hkey. cbv beta iota delta [ret].
    unfold Secrets.encrypt_secret. cbv beta iota. rewrite Hseal. cbv beta iota.
    rewrite Hkid. cbv beta iota delta [ret].
    rewrite net_count_app_net. rewrite Hput. cbn [fst existsb]. rewrite orb_false_r. reflexivity.
Qed.

Lemma http_success_rules_witness :
  fst (Secrets.get_public_key "admin/hapus" "t1" Sample.w_ok []) = Ok Sample.key_obj /\
  fst (Secrets.create_or_update_secret "admin/hapus" "t1" "PAT1" "t1" Sample.w_ok []) = Ok true.
Proof.
  split.
  - refine (proj1 (proj1 (proj2 http_success_rules) "admin/hapus" "t1" Sample.w_ok []
                     (mkResponse 200 "{...}" (Some Sample.key_obj) []) _) _ Sample.key_obj _);
      vm_compute; reflexivity.
  - refine (eq_trans
              (proj2 (proj2 http_success_rules) "admin/hapus" "t1" "PAT1" "t1" Sample.w_ok []
                 (mkResponse 200 "{...}" (Some Sample.key_obj) [])
                 [("key", JStr "a2V5"); ("key_id", JStr "k1")] "a2V5" (JStr "k1") "sealed:t1"
                 (mkResponse 201 "" None []) _ _ _ _ _ _ _) _);
      vm_compute; reflexivity.
Defined.

(** C4 (as stated) fails for the secret upsert: the PUT is answered 200,
    yet [create_or_update_secret] reports failure. *)
Lemma secret_upsert_200_reported_failed :
  w_srv Sample.w_put200 1
    (mkRequest "t1" "PUT" (Secrets.secret_url "admin/hapus" "PAT1")
       (Some (JObj [("encrypted_value", JStr "sealed:t1"); ("key_id", JStr "k1")])))
  = Http (mkResponse 200 "" None []) /\
  Secrets.create_or_update_secret "admin/hapus" "t1" "PAT1" "t1" Sample.w_put200 []
  = (Ok false,
     [ENet (mkRequest "t1" "GET" (Secrets.public_key_url "admin/hapus") None);
      ENet (mkRequest "t1" "PUT" (Secrets.secret_url "admin/hapus" "PAT1")
              (Some (JObj [("encrypted_value", JStr "sealed:t1"); ("key_id", JStr "k1")])))]).
Proof. split; vm_compute; reflexivity. Qed.

Lemma call_total t e m d w tr :
  exists v rq, Collab.call t e m d w tr = (Ok v, tr ++ [ENet rq]).
Proof.
  destruct (call_eq t e m d w tr) as [rq [_ [_ E]]]. rewrite E.
  destruct (w_srv w (net_count tr) rq) as [|h]; [eauto|].
  destruct (existsb _ success_statuses); [destruct (String.eqb _ _)|]; eauto.
Qed.



Lemma call_get_patch t e m d w tr :
  m = "GET" \/ m = "PATCH" ->
  exists v, Collab.call t e m d w tr
            = (Ok v, tr ++ [ENet (mkRequest t m (api_base ++ e)
                                   (if String.eqb m "PATCH" then d else None))]).
Proof.
  intros [-> | ->]; unfold Collab.call, bind, send; simpl;
  (destruct (w_srv w _ _) as [|h]; [unfold ret; eexists; reflexivity|]);
  repeat match goal with
         | |- context [if ?b then _ else _] => destruct b
         | |- context [match ?x with Some _ => _ | None => _ end] => destruct x
         end; unfold ret; eexists; reflexivity.
Qed.




(** ** Sealing: base64 and UTF-8 round trips *)


















(** ** Further properties of the two scripts *)

Lemma has_char_app c a b : has_char c (a ++ b)%string = has_char c a || has_char c b.
Proof. induction a as [|d a IH]; simpl; [reflexivity|]. rewrite IH, orb_assoc. reflexivity. Qed.

(** [TARGET_REPO] (both scripts) always contains a ['/']; a configured
    [TARGET_REPO] that contains one is used unchanged. *)
Theorem target_repo_has_slash cfg :
  has_char "/" (TARGET_REPO cfg) = true
  /\ (has_char "/" (env_target_repo cfg) = true -> TARGET_REPO cfg = env_target_repo cfg).
Proof.
  unfold TARGET_REPO. destruct (env_target_repo cfg) as [|c r].
  - split; [|discriminate]. cbn [String.eqb orb].
    rewrite has_char_app, orb_true_iff. right. reflexivity.
  - change (String.eqb (String c r) "") with false. cbn [orb].
    destruct (has_char "/" (String c r)) eqn:H; cbn [negb].
    + split; [exact H | reflexivity].
    + split; [|discriminate]. rewrite has_char_app, orb_true_iff. right. reflexivity.
Qed.

Lemma target_repo_has_slash_witness :
  has_char "/" (env_target_repo Sample.cfg_two) = true
  /\ TARGET_REPO Sample.cfg_two = env_target_repo Sample.cfg_two.
Proof.
  assert (H : has_char "/" (env_target_repo Sample.cfg_two) = true) by reflexivity.
  split; [exact H | exact (proj2 (target_repo_has_slash Sample.cfg_two) H)].
Defined.

Lemma in_getenv_list get x :
  In x (getenv_list get) <-> exists i, 1 <= i <= 20 /\ get i = Some x /\ x <> "".
Proof.
  unfold getenv_list. rewrite in_flat_map. split.
  - intros [i [Hi Hx]]. apply in_seq in Hi. unfold present in Hx.
    destruct (get i) as [s|] eqn:E; [|contradiction].
    destruct (String.eqb s "") eqn:Es; [contradiction|].
    destruct Hx as [<-|[]]. exists i. split; [lia|]. split; [exact E|].
    apply String.eqb_neq; exact Es.
  - intros [i [Hi [E Hne]]]. exists i. split; [apply in_seq; lia|].
    unfold present. rewrite E. apply String.eqb_neq in Hne. rewrite Hne. left; reflexivity.
Qed.

Lemma length_flat_map_le1 {A B} (f : A -> list B) (l : list A) :
  (forall x, length (f x) <= 1) -> length (flat_map f l) <= length l.
Proof.
  intros Hf. induction l as [|x l IH]; cbn [flat_map length]; [lia|].
  rewrite length_app. specialize (Hf x). lia.
Qed.

(** The filtered lists [TOKENS] and [USERS] of the collaborator script hold
    exactly the set, non-empty variables [X1] .. [X20], so at most 20 entries. *)
Theorem getenv_list_spec get :
  (forall x, In x (getenv_list get) <-> exists i, 1 <= i <= 20 /\ get i = Some x /\ x <> "")
  /\ length (getenv_list get) <= 20.
Proof.
  split; [apply in_getenv_list|].
  unfold getenv_list. rewrite <- (length_seq 1 20) at 2. apply length_flat_map_le1.
  intros i. unfold present. destruct (get i); [destruct (String.eqb _ _)|]; cbn; lia.
Qed.

Lemma NoDup_flat_map_opt {A B} (g : A -> B) (h : A -> list B) (l : list A) :
  (forall i, h i = [] \/ h i = [g i]) -> NoDup (map g l) -> NoDup (flat_map h l).
Proof.
  intros Hh. induction l as [|a l IH]; cbn [map flat_map]; intros Hnd; [constructor|].
  inversion Hnd as [|x y Hnin Hnd']; subst.
  destruct (Hh a) as [E|E]; rewrite E; cbn [app]; [apply IH; exact Hnd'|].
  constructor; [|apply IH; exact Hnd'].
  intros Hin. apply in_flat_map in Hin. destruct Hin as [i [Hi Hy]].
  destruct (Hh i) as [E'|E']; rewrite E' in Hy; [contradiction|].
  destruct Hy as [Hy|[]]. apply Hnin. rewrite <- Hy. apply in_map; exact Hi.
Qed.

Lemma pat_names_NoDup : NoDup (map pat_name (seq 1 20)).
Proof.
  vm_compute.
  repeat (constructor; [cbn [In]; intuition discriminate|]). constructor.
Qed.

Lemma secrets_tokens_fst cfg :
  map fst (Secrets.TOKENS cfg)
  = flat_map (fun i => map (fun _ => pat_name i) (present (env_pat cfg) i)) (seq 1 20).
Proof.
  unfold Secrets.TOKENS. induction (seq 1 20) as [|i l IH]; cbn [flat_map]; [reflexivity|].
  rewrite map_app, IH, map_map. reflexivity.
Qed.

(** The [TOKENS] dict of the secret script maps [PATi] to the value of every
    set, non-empty [PATi] with [1 <= i <= 20], and nothing else; no secret
    name occurs twice. *)
Theorem secrets_tokens_spec cfg :
  (forall n v, In (n, v) (Secrets.TOKENS cfg)
               <-> exists i, 1 <= i <= 20 /\ n = pat_name i /\ env_pat cfg i = Some v /\ v <> "")
  /\ NoDup (map fst (Secrets.TOKENS cfg)).
Proof.
  split.
  - intros n v. unfold Secrets.TOKENS. rewrite in_flat_map. split.
    + intros [i [Hi Hx]]. apply in_seq in Hi. apply in_map_iff in Hx.
      destruct Hx as [s [E Hs]]. injection E as <- <-.
      unfold present in Hs. destruct (env_pat cfg i) as [s'|] eqn:Ep; [|contradiction].
      destruct (String.eqb s' "") eqn:Es; [contradiction|].
      destruct Hs as [<-|[]]. exists i. repeat split; try lia; auto.
      apply String.eqb_neq; exact Es.
    + intros [i [Hi [-> [E Hne]]]]. exists i. split; [apply in_seq; lia|].
      apply in_map_iff. exists v. split; [reflexivity|].
      unfold present. rewrite E. apply String.eqb_neq in Hne. rewrite Hne. left; reflexivity.
  - rewrite secrets_tokens_fst. apply (NoDup_flat_map_opt pat_name); [|exact pat_names_NoDup].
    intros i. unfold present. destruct (env_pat cfg i); [destruct (String.eqb _ _)|]; auto.
Qed.

Lemma secrets_tokens_pat1 cfg :
  set_var (Secrets.ADMIN_TOKEN cfg) = true ->
  exists rest, Secrets.TOKENS cfg = ("PAT1", secrets_admin_token cfg) :: rest.
Proof.
  unfold set_var, secrets_admin_token, Secrets.ADMIN_TOKEN, Secrets.TOKENS. intros H.
  destruct (env_pat cfg 1) as [s|] eqn:E; [|discriminate H].
  cbn [seq flat_map]. unfold present at 1. rewrite E.
  destruct (String.eqb s "") eqn:Es; [discriminate H|].
  eexists. reflexivity.
Qed.

(** Once [PAT1] is set, the first secret of the batch is [PAT1] itself with
    the admin token as value, so the [if not TOKENS: exit(1)] branch is
    unreachable. *)
Theorem secrets_admin_token_first cfg :
  set_var (Secrets.ADMIN_TOKEN cfg) = true ->
  exists rest, Secrets.TOKENS cfg = ("PAT1", secrets_admin_token cfg) :: rest.
Proof. exact (secrets_tokens_pat1 cfg). Qed.

Lemma secrets_admin_token_first_witness :
  set_var (Secrets.ADMIN_TOKEN Sample.cfg_two) = true /\
  exists rest, Secrets.TOKENS Sample.cfg_two = ("PAT1", secrets_admin_token Sample.cfg_two) :: rest.
Proof.
  assert (H : set_var (Secrets.ADMIN_TOKEN Sample.cfg_two) = true) by reflexivity.
  split; [exact H | exact (secrets_admin_token_first Sample.cfg_two H)].
Defined.

Lemma split_comma_space_cons2 c d r :
  split_comma_space (String c (String d r))
  = if Ascii.eqb c "," && Ascii.eqb d " " then "" :: split_comma_space r
    else match split_comma_space (String d r) with
         | [] => [String c ""]
         | h :: t => String c h :: t
         end.
Proof. reflexivity. Qed.

Lemma split_comma_space_nonempty s : split_comma_space s <> [].
Proof.
  destruct s as [|c [|d r]]; [discriminate|discriminate|].
  rewrite split_comma_space_cons2.
  destruct (Ascii.eqb c "," && Ascii.eqb d " "); [discriminate|].
  destruct (split_comma_space (String d r)); discriminate.
Qed.

Lemma concat_sep_cons (sep x : string) (l : list string) :
  l <> [] -> String.concat sep (x :: l) = (x ++ sep ++ String.concat sep l)%string.
Proof. destruct l; [congruence|reflexivity]. Qed.

(** Joining [s.split(', ')] with [', '] gives back [s]: the scopes the
    preflight prints are the header as received. *)
Theorem split_comma_space_join s :
  String.concat ", " (split_comma_space s) = s.
Proof.
  remember (String.length s) as n eqn:En. revert s En.
  induction n as [n IH] using lt_wf_ind. intros s En.
  destruct s as [|c [|d r]]; [reflexivity|reflexivity|].
  rewrite split_comma_space_cons2.
  destruct (Ascii.eqb c "," && Ascii.eqb d " ") eqn:E.
  - apply andb_true_iff in E. destruct E as [E1 E2].
    apply Ascii.eqb_eq in E1, E2. subst c d.
    rewrite concat_sep_cons by apply split_comma_space_nonempty.
    rewrite (IH (String.length r)) by (cbn in En; lia || reflexivity). reflexivity.
  - pose proof (IH (String.length (String d r))) as H.
    specialize (H ltac:(cbn in En |- *; lia) _ eq_refl).
    pose proof (split_comma_space_nonempty (String d r)) as Hne.
    destruct (split_comma_space (String d r)) as [|h t]; [congruence|].
    destruct t as [|h' t]; cbn in H |- *; rewrite H; reflexivity.
Qed.

Section RaisesOnly.

Variable Q : exn -> Prop.

Lemma raises_only_ret {A} (a : A) : raises_only Q (ret a).
Proof. intros w tr e H. discriminate H. Qed.

Lemma raises_only_raise {A} (e : exn) : Q e -> raises_only Q (@raise A e).
Proof. intros HQ w tr e' H. injection H as <-. exact HQ. Qed.

Lemma raises_only_bind {A B} (m : M A) (k : A -> M B) :
  raises_only Q m -> (forall a, raises_only Q (k a)) -> raises_only Q (bind m k).
Proof.
  intros Hm Hk w tr e. unfold bind.
  destruct (m w tr) as [[a|e'] tr'] eqn:E.
  - apply Hk.
  - cbn [fst]. intros H. injection H as <-. apply (Hm w tr). rewrite E. reflexivity.
Qed.

Lemma raises_only_mapM {A B} (f : A -> M B) (l : list A) :
  (forall x, raises_only Q (f x)) -> raises_only Q (mapM f l).
Proof.
  intros Hf. induction l as [|x l IH]; cbn [mapM]; [apply raises_only_ret|].
  apply raises_only_bind; [apply Hf|]; intros y.
  apply raises_only_bind; [exact IH|]; intros ys. apply raises_only_ret.
Qed.

End RaisesOnly.

Lemma raises_only_requests_call rq : raises_only exit_one (requests_call rq).
Proof.
  unfold requests_call. apply raises_only_bind.
  - intros w tr e H. discriminate H.
  - intros [|h]; [apply raises_only_raise; exact I | apply raises_only_ret].
Qed.

Lemma raises_only_create_or_update_secret repo tok name v :
  raises_only exit_one (Secrets.create_or_update_secret repo tok name v).
Proof.
  unfold Secrets.create_or_update_secret, Secrets.get_public_key.
  apply raises_only_bind.
  { apply raises_only_bind; [apply raises_only_requests_call|]. intros h.
    destruct (Z.eqb (rs_status h) 200); [|apply raises_only_ret].
    unfold resp_json. destruct (rs_json h); [apply raises_only_ret|apply raises_only_raise; exact I]. }
  intros kd. destruct (negb (truthy kd)); [apply raises_only_ret|].
  assert (Hgi : forall o k, raises_only exit_one (Secrets.py_getitem o k)).
  { intros o k. unfold Secrets.py_getitem. destruct o; try (apply raises_only_raise; exact I).
    destruct (obj_lookup k kv); [apply raises_only_ret|apply raises_only_raise; exact I]. }
  apply raises_only_bind; [apply Hgi|]; intros key.
  apply raises_only_bind.
  { intros w tr e. unfold Secrets.encrypt_secret.
    destruct key; try (intros H; injection H as <-; exact I).
    destruct (w_seal w s v); cbn [fst]; intros H; [discriminate H|injection H as <-; exact I]. }
  intros c. apply raises_only_bind; [apply Hgi|]; intros kid.
  apply raises_only_bind; [apply raises_only_requests_call|]; intros h. apply raises_only_ret.
Qed.

Lemma raises_only_check_permissions tok : raises_only exit_one (Secrets.check_permissions tok).
Proof.
  intros w tr e H. destruct (check_permissions_trace tok w tr) as [_ [E|[E|E]]];
    rewrite E in H; [discriminate H|discriminate H|injection H as <-; exact I].
Qed.

(** The secret script never ends with an uncaught exception other than
    [exit(1)]: every error of the preflight or of the batch is caught by
    [except Exception], while [SystemExit] passes through it. *)
Theorem secrets_main_only_exit_escapes cfg w :
  match fst (Secrets.main cfg w) with
  | Err e => e = SystemExit 1
  | Ok _ => True
  end.
Proof.
  unfold Secrets.main.
  destruct (set_var (Secrets.ADMIN_TOKEN cfg)); cbn [negb]; [|reflexivity].
  destruct (Secrets.TOKENS cfg) as [|p ps]; [reflexivity|].
  set (body := (ok <- Secrets.check_permissions _ ;;
                if ok then outcomes <- Secrets.setup_secrets _ _ (p :: ps) ;; ret (Some outcomes)
                else raise (SystemExit 1))).
  assert (Hb : raises_only exit_one body).
  { unfold body. apply raises_only_bind; [apply raises_only_check_permissions|]. intros [|].
    - apply raises_only_bind; [|intros; apply raises_only_ret].
      unfold Secrets.setup_secrets. apply raises_only_mapM. intros nv.
      apply raises_only_bind; [apply raises_only_create_or_update_secret|].
      intros; apply raises_only_ret.
    - apply raises_only_raise. reflexivity. }
  unfold try_except. specialize (Hb w []).
  destruct (body w []) as [[a|e] tr'] eqn:E; [exact I|].
  specialize (Hb e eq_refl).
  destruct e; cbn [fst]; try exact I.
  cbn in Hb. subst. reflexivity.
Qed.

Lemma requests_call_shape rq w tr :
  exists r, requests_call rq w tr = (r, tr ++ [ENet rq]).
Proof. unfold requests_call, bind, send. destruct (w_srv w _ _); eexists; reflexivity. Qed.

Lemma get_public_key_shape repo tok w tr :
  exists r, Secrets.get_public_key repo tok w tr
            = (r, tr ++ [ENet (mkRequest tok "GET" (Secrets.public_key_url repo) None)]).
Proof.
  unfold Secrets.get_public_key, bind at 1.
  destruct (requests_call_shape (mkRequest tok "GET" (Secrets.public_key_url repo) None) w tr)
    as [[h|e] E]; rewrite E; [|eexists; reflexivity].
  destruct (Z.eqb (rs_status h) 200); [unfold resp_json; destruct (rs_json h)|]; eexists; reflexivity.
Qed.

Lemma py_getitem_shape o k w tr : exists r, Secrets.py_getitem o k w tr = (r, tr).
Proof.
  unfold Secrets.py_getitem. destruct o; try (eexists; reflexivity).
  destruct (obj_lookup k kv); eexists; reflexivity.
Qed.

Lemma encrypt_secret_shape k v w tr : exists r, Secrets.encrypt_secret k v w tr = (r, tr).
Proof.
  unfold Secrets.encrypt_secret. destruct k; try (eexists; reflexivity).
  destruct (w_seal w s v); eexists; reflexivity.
Qed.

Ltac cous_step :=
  unfold bind at 1; cbv beta;
  match goal with
  | |- context [Secrets.py_getitem ?o ?k ?w ?tr] =>
      let r := fresh "r" in let E := fresh "E" in
      destruct (py_getitem_shape o k w tr) as [r E]; rewrite E; destruct r
  | |- context [Secrets.encrypt_secret ?o ?k ?w ?tr] =>
      let r := fresh "r" in let E := fresh "E" in
      destruct (encrypt_secret_shape o k w tr) as [r E]; rewrite E; destruct r
  end; cbv beta iota.

Lemma get_public_key_ok repo tok w tr kd tr' :
  Secrets.get_public_key repo tok w tr = (Ok kd, tr') -> truthy kd = true ->
  exists h, w_srv w (net_count tr) (key_request tok repo) = Http h
            /\ rs_status h = 200%Z /\ rs_json h = Some kd.
Proof.
  unfold Secrets.get_public_key, requests_call, bind, send.
  change (mkRequest tok "GET" (Secrets.public_key_url repo) None) with (key_request tok repo).
  destruct (w_srv w (net_count tr) (key_request tok repo)) as [|h] eqn:Eh;
    cbv beta iota delta [ret raise]; [intros H; discriminate H|].
  destruct (Z.eqb_spec (rs_status h) 200) as [Hs|Hs]; cbv beta iota delta [ret raise];
    [|intros H Ht; injection H as <- _; discriminate Ht].
  unfold resp_json. destruct (rs_json h) as [j|] eqn:Ej; cbv beta iota delta [ret raise];
    [|intros H; discriminate H].
  intros H _. injection H as <- _. eauto.
Qed.

Lemma py_getitem_ok o k w tr x tr' :
  Secrets.py_getitem o k w tr = (Ok x, tr') -> exists kv, o = JObj kv /\ obj_lookup k kv = Some x.
Proof.
  unfold Secrets.py_getitem. destruct o as [| | | | |kv]; try (intros H; discriminate H).
  destruct (obj_lookup k kv) as [y|] eqn:E; intros H; [|discriminate H].
  injection H as <- _. eauto.
Qed.

Lemma encrypt_secret_str k v w tr c tr' :
  Secrets.encrypt_secret k v w tr = (Ok c, tr') -> exists ks, k = JStr ks /\ w_seal w ks v = Some c.
Proof.
  unfold Secrets.encrypt_secret. destruct k; try (intros H; discriminate H).
  destruct (w_seal w s v) eqn:E; intros H; [|discriminate H].
  injection H as -> _. eauto.
Qed.

Lemma cous_trace repo tok name v w tr :
  exists r post,
    Secrets.create_or_update_secret repo tok name v w tr = (r, tr ++ post)
    /\ (post = [ENet (key_request tok repo)]
        \/ exists c kid, sealed_upload w (net_count tr) tok repo v c kid
             /\ post = [ENet (key_request tok repo); ENet (upsert_request tok repo name c kid)])
    /\ (r = Ok true ->
        exists c kid, sealed_upload w (net_count tr) tok repo v c kid
          /\ post = [ENet (key_request tok repo); ENet (upsert_request tok repo name c kid)]).
Proof.
  unfold Secrets.create_or_update_secret. unfold bind at 1.
  set (g := ENet (key_request tok repo)).
  destruct (get_public_key_shape repo tok w tr) as [[kd|e] Ek]; rewrite Ek; cbv beta iota;
    [|exists (Err e), [g]; split; [reflexivity|split; [left; reflexivity|intros H; discriminate H]]].
  destruct (truthy kd) eqn:Et; cbn [negb].
  2:{ exists (Ok false), [g]; split; [reflexivity|split; [left; reflexivity|intros H; discriminate H]]. }
  repeat cous_step;
    try (eexists; exists [g]; split; [reflexivity|split; [left; reflexivity|intros H; discriminate H]]).
  destruct (get_public_key_ok _ _ _ _ _ _ Ek Et) as [h [Hh [Hs Hj]]].
  match goal with
  | H1 : Secrets.py_getitem kd "key" _ _ = (Ok ?key, _),
    H2 : Secrets.encrypt_secret ?key v _ _ = (Ok _, _),
    H3 : Secrets.py_getitem kd "key_id" _ _ = (Ok _, _) |- _ =>
      destruct (py_getitem_ok _ _ _ _ _ _ H1) as [kv [-> Hk]];
      destruct (py_getitem_ok _ _ _ _ _ _ H3) as [kv' [Ekv Hkid]];
      injection Ekv as <-;
      destruct (encrypt_secret_str _ _ _ _ _ _ H2) as [ks [-> Hks]]
  end.
  match goal with
  | Hc : w_seal w ks v = Some ?c, Hi : obj_lookup "key_id" kv = Some ?kid |- _ =>
      assert (Hu : sealed_upload w (net_count tr) tok repo v c kid)
        by (exists h, kv, ks; repeat split; assumption)
  end.
  unfold bind at 1; cbv beta.
  match goal with
  | |- context [requests_call ?rq ?w ?tr] =>
      destruct (requests_call_shape rq w tr) as [[h'|e] E4]; rewrite E4
  end; cbv beta iota;
  (do 2 eexists; split; [rewrite <- app_assoc; reflexivity|];
   split; [right; do 2 eexists; split; [exact Hu|reflexivity]
          |intros _; do 2 eexists; split; [exact Hu|reflexivity]]).
Qed.

(** [create_or_update_secret] sends the public-key GET and then at most one
    PUT.  The PUT carries the value sealed with the [key] of the GET's 200
    answer and that answer's [key_id]; the function returns [True] only
    after that PUT. *)
Theorem secret_upsert_requests repo tok name v w tr :
  exists post,
    snd (Secrets.create_or_update_secret repo tok name v w tr) = tr ++ post
    /\ (post = [ENet (key_request tok repo)]
        \/ exists c kid, sealed_upload w (net_count tr) tok repo v c kid
             /\ post = [ENet (key_request tok repo); ENet (upsert_request tok repo name c kid)])
    /\ (fst (Secrets.create_or_update_secret repo tok name v w tr) = Ok true ->
        exists c kid, sealed_upload w (net_count tr) tok repo v c kid
          /\ post = [ENet (key_request tok repo); ENet (upsert_request tok repo name c kid)]).
Proof.
  destruct (cous_trace repo tok name v w tr) as [r [post [E [H1 H2]]]].
  rewrite E. exists post. cbn [fst snd]. auto.
Qed.

(** When the public-key GET answers a status other than 200, or 200 with a
    falsy body, [create_or_update_secret] returns [False] and sends no PUT. *)
Theorem secret_not_uploaded_without_key repo tok name v w tr h :
  w_srv w (net_count tr) (key_request tok repo) = Http h ->
  rs_status h <> 200%Z \/ (rs_status h = 200%Z /\ exists k, rs_json h = Some k /\ truthy k = false) ->
  Secrets.create_or_update_secret repo tok name v w tr = (Ok false, tr ++ [ENet (key_request tok repo)]).
Proof.
  intros Hh Hc.
  unfold Secrets.create_or_update_secret, Secrets.get_public_key, requests_call, bind, send.
  change (mkRequest tok "GET" (Secrets.public_key_url repo) None) with (key_request tok repo).
  rewrite Hh. cbv beta iota delta [ret raise].
  destruct Hc as [Hs|[Hs [k [Hj Hk]]]].
  - apply Z.eqb_neq in Hs. rewrite Hs. reflexivity.
  - rewrite Hs, Z.eqb_refl. unfold resp_json. rewrite Hj. cbv beta iota delta [ret].
    rewrite Hk. reflexivity.
Qed.

Lemma secret_not_uploaded_without_key_witness :
  w_srv (Sample.w_keyresp (Sample.resp 404 "Not Found" None)) (net_count []) (key_request "t1" "admin/hapus")
  = Http (mkResponse 404 "Not Found" None []) /\
  Secrets.create_or_update_secret "admin/hapus" "t1" "PAT1" "t1"
    (Sample.w_keyresp (Sample.resp 404 "Not Found" None)) []
  = (Ok false, [] ++ [ENet (key_request "t1" "admin/hapus")]).
Proof.
  assert (H : w_srv (Sample.w_keyresp (Sample.resp 404 "Not Found" None)) (net_count [])
                (key_request "t1" "admin/hapus") = Http (mkResponse 404 "Not Found" None []))
    by (vm_compute; reflexivity).
  split; [exact H|].
  apply (secret_not_uploaded_without_key _ _ _ _ _ _ _ H). left. discriminate.
Defined.

(** When the public-key answer is a non-empty object without a [key] field,
    [create_or_update_secret] raises [KeyError] after the GET and sends no
    PUT. *)
Theorem secret_key_missing_raises repo tok name v w tr h kv :
  w_srv w (net_count tr) (key_request tok repo) = Http h ->
  rs_status h = 200%Z -> rs_json h = Some (JObj kv) -> kv <> [] ->
  obj_lookup "key" kv = None ->
  Secrets.create_or_update_secret repo tok name v w tr
  = (Err KeyError, tr ++ [ENet (key_request tok repo)]).
Proof.
  intros Hh Hs Hj Hne Hk.
  unfold Secrets.create_or_update_secret, Secrets.get_public_key, requests_call, bind, send.
  change (mkRequest tok "GET" (Secrets.public_key_url repo) None) with (key_request tok repo).
  rewrite Hh. cbv beta iota delta [ret raise]. rewrite Hs, Z.eqb_refl. unfold resp_json. rewrite Hj.
  cbv beta iota delta [ret].
  destruct kv as [|kv0 kv']; [contradiction|]. cbn [truthy length Nat.eqb negb]. cbv beta iota.
  unfold Secrets.py_getitem. rewrite Hk. reflexivity.
Qed.

Lemma secret_key_missing_raises_witness :
  Secrets.create_or_update_secret "admin/hapus" "t1" "PAT1" "t1"
    (Sample.w_keyresp (Sample.resp 200 "{...}" (Some (JObj [("key_id", JStr "k1")])))) []
  = (Err KeyError, [] ++ [ENet (key_request "t1" "admin/hapus")]).
Proof.
  apply (secret_key_missing_raises _ _ _ _ _ _ (mkResponse 200 "{...}" (Some (JObj [("key_id", JStr "k1")])) [])
           [("key_id", JStr "k1")]); [vm_compute; reflexivity|reflexivity|reflexivity|discriminate|reflexivity].
Defined.

Lemma appends_try_except P {A} (m : M A) (h : exn -> M A) :
  appends P m -> (forall e, appends P (h e)) -> appends P (try_except m h).
Proof.
  intros Hm Hh w tr. unfold try_except.
  destruct (Hm w tr) as [post1 [E1 F1]].
  destruct (m w tr) as [[a|e] tr1]; cbn [snd] in E1; subst tr1; [exists post1; auto|].
  destruct (Hh e w (tr ++ post1)) as [post2 [E2 F2]].
  destruct e; try (exists post1; auto; fail);
  (exists (post1 ++ post2); rewrite E2, app_assoc; split; [reflexivity|apply Forall_app; auto]).
Qed.

Lemma appends_check_permissions P tok :
  P (ENet (preflight_request tok)) -> appends P (Secrets.check_permissions tok).
Proof.
  intros HP w tr. destruct (check_permissions_trace tok w tr) as [E _].
  exists [ENet (preflight_request tok)]. auto.
Qed.

Lemma appends_at_create_or_update_secret w (P : event -> Prop) repo tok name v :
  P (ENet (key_request tok repo)) ->
  (forall n c kid, sealed_upload w n tok repo v c kid -> P (ENet (upsert_request tok repo name c kid))) ->
  appends_at w P (Secrets.create_or_update_secret repo tok name v).
Proof.
  intros Hg Hp tr. destruct (cous_trace repo tok name v w tr) as [r [post [E [H _]]]].
  rewrite E. exists post. split; [reflexivity|].
  destruct H as [->|[c [kid [Hs ->]]]]; [auto|].
  constructor; [exact Hg|]. constructor; [exact (Hp _ _ _ Hs)|constructor].
Qed.

(** Every request of the secret script uses the admin token and is the
    preflight [GET /user], the public-key GET of [TARGET_REPO], or the upsert
    PUT of a secret of [TOKENS] to [TARGET_REPO].  The upsert carries that
    secret's value sealed with the key of a 200 answer to a public-key GET,
    and the key id of that answer.  The script never sleeps. *)
Theorem secrets_main_requests cfg w :
  Forall (secret_script_event w cfg) (snd (Secrets.main cfg w)).
Proof.
  unfold Secrets.main.
  destruct (set_var (Secrets.ADMIN_TOKEN cfg)); cbn [negb]; [|constructor].
  fold (secrets_admin_token cfg).
  destruct (Secrets.TOKENS cfg) as [|p ps] eqn:ET; [constructor|].
  match goal with
  | |- Forall _ (snd (try_except ?m ?h w [])) =>
      assert (Ha : appends_at w (secret_script_event w cfg) (try_except m h))
  end.
  { apply appends_at_try_except; [|intros; apply appends_at_of, appends_ret].
    apply appends_at_bind.
    - apply appends_at_of, appends_check_permissions. left. reflexivity.
    - intros [|]; [|apply appends_at_of, appends_raise].
      apply appends_at_bind; [|intros; apply appends_at_of, appends_ret].
      unfold Secrets.setup_secrets. apply appends_at_mapM. intros [n v] Hin.
      apply appends_at_bind; [|intros; apply appends_at_of, appends_ret]. cbn [fst snd].
      apply appends_at_create_or_update_secret.
      + right; left; reflexivity.
      + intros k c kid Hs. right; right. exists n, v, c, kid, k. rewrite ET. auto. }
  destruct (Ha []) as [post [E F]]. rewrite E. exact F.
Qed.

Lemma setup_secrets_names repo tok tokens w tr outs :
  fst (Secrets.setup_secrets repo tok tokens w tr) = Ok outs ->
  map fst outs = map fst tokens.
Proof.
  unfold Secrets.setup_secrets. revert tr outs.
  induction tokens as [|nv tokens IH]; intros tr outs; cbn [mapM].
  - intros H. injection H as <-. reflexivity.
  - unfold bind at 1 2 3.
    destruct (Secrets.create_or_update_secret repo tok (fst nv) (snd nv) w tr) as [[b|e] tr1];
      cbv beta iota; [|discriminate].
    unfold ret at 1. cbv beta iota.
    destruct (mapM _ tokens w tr1) as [[ys|e] tr2] eqn:Em; cbv beta iota; [|discriminate].
    intros H. injection H as <-. cbn [map fst]. f_equal.
    apply (IH tr1). rewrite Em. reflexivity.
Qed.

Lemma success_failed_count outs :
  Secrets.success_count outs + length (Secrets.failed outs) = length outs.
Proof.
  unfold Secrets.success_count, Secrets.failed. rewrite length_map.
  induction outs as [|[n [|]] outs IH]; cbn [filter snd negb length]; lia.
Qed.

(** When the loop of [setup_secrets] completes, it has one outcome per secret,
    in the order of [TOKENS]; successes and failures add up to [len(TOKENS)],
    and all succeeded exactly when the failed list is empty. *)
Theorem setup_secrets_outcomes repo tok tokens w tr outs :
  fst (Secrets.setup_secrets repo tok tokens w tr) = Ok outs ->
  map fst outs = map fst tokens
  /\ Secrets.success_count outs + length (Secrets.failed outs) = length tokens
  /\ (Secrets.success_count outs = length tokens <-> Secrets.failed outs = []).
Proof.
  intros H. pose proof (setup_secrets_names _ _ _ _ _ _ H) as En.
  assert (El : length outs = length tokens)
    by (rewrite <- (length_map fst outs), <- (length_map fst tokens), En; reflexivity).
  pose proof (success_failed_count outs) as Hc.
  split; [exact En|]. split; [lia|].
  rewrite <- length_zero_iff_nil. lia.
Qed.

Lemma setup_secrets_outcomes_witness :
  fst (Secrets.setup_secrets "admin/hapus" "t1" (Secrets.TOKENS Sample.cfg_two) Sample.w_ok [])
  = Ok [("PAT1", true); ("PAT2", true)] /\
  map fst [("PAT1", true); ("PAT2", true)] = map fst (Secrets.TOKENS Sample.cfg_two)
  /\ Secrets.success_count [("PAT1", true); ("PAT2", true)]
     + length (Secrets.failed [("PAT1", true); ("PAT2", true)]) = length (Secrets.TOKENS Sample.cfg_two)
  /\ (Secrets.success_count [("PAT1", true); ("PAT2", true)] = length (Secrets.TOKENS Sample.cfg_two)
      <-> Secrets.failed [("PAT1", true); ("PAT2", true)] = []).
Proof.
  assert (H : fst (Secrets.setup_secrets "admin/hapus" "t1" (Secrets.TOKENS Sample.cfg_two) Sample.w_ok [])
              = Ok [("PAT1", true); ("PAT2", true)]) by (vm_compute; reflexivity).
  split; [exact H|]. exact (setup_secrets_outcomes _ _ _ _ _ _ H).
Defined.

(** Without any [PATi] the collaborator script stops with [IndexError] before
    any request; with at most one [USERNAMEi] it only waits 5 s. *)
Theorem collab_degenerate_configs cfg w :
  (Collab.TOKENS cfg = [] -> Collab.main cfg w = (Err IndexError, []))
  /\ (Collab.TOKENS cfg <> [] -> length (Collab.USERS cfg) <= 1 ->
      Collab.main cfg w = (Ok [], [ESleep 5000])).
Proof.
  unfold Collab.main, Collab.setup_collaborators. split.
  - intros ->. reflexivity.
  - intros Ht Hu. destruct (Collab.TOKENS cfg) as [|t ts]; [contradiction|].
    destruct (Collab.USERS cfg) as [|u [|u2 us]]; cbn [length] in Hu; [| |lia]; reflexivity.
Qed.

Lemma collab_degenerate_configs_witness :
  Collab.TOKENS Sample.cfg_solo <> [] /\ length (Collab.USERS Sample.cfg_solo) <= 1 /\
  Collab.main Sample.cfg_solo Sample.w_ok = (Ok [], [ESleep 5000]).
Proof.
  assert (H1 : Collab.TOKENS Sample.cfg_solo <> []) by (vm_compute; discriminate).
  assert (H2 : length (Collab.USERS Sample.cfg_solo) <= 1) by (vm_compute; lia).
  split; [exact H1|]. split; [exact H2|].
  exact (proj2 (collab_degenerate_configs Sample.cfg_solo Sample.w_ok) H1 H2).
Defined.

Lemma accept_member_name repo u t w tr y :
  u <> "" -> t <> "" ->
  fst (Collab.accept_member repo (u, t) w tr) = Ok y -> option_map fst y = Some u.
Proof.
  intros Hu Ht. unfold Collab.accept_member.
  apply String.eqb_neq in Hu, Ht. rewrite Hu, Ht. cbn [orb]. unfold bind at 1.
  destruct (call_total t Collab.invitations_endpoint "GET" None w tr) as [v [rq E]].
  rewrite E. cbv beta iota.
  destruct (negb (truthy v) || negb (is_list v)).
  - intros H. injection H as <-. reflexivity.
  - unfold bind at 1.
    destruct (Collab.scan_invites t repo (Collab.list_items v) w (tr ++ [ENet rq]))
      as [[acc|e] tr2]; cbv beta iota; [|discriminate].
    unfold bind, sleep, ret. cbn [fst]. intros H. injection H as <-. reflexivity.
Qed.

Lemma accept_phase_names repo pairs w tr outs :
  Forall (fun p => fst p <> "" /\ snd p <> "") pairs ->
  fst (Collab.accept_phase repo pairs w tr) = Ok outs ->
  map (option_map fst) outs = map (fun p => Some (fst p)) pairs.
Proof.
  unfold Collab.accept_phase. revert tr outs.
  induction pairs as [|[u t] pairs IH]; intros tr outs Hf; cbn [mapM].
  - intros H. injection H as <-. reflexivity.
  - inversion Hf as [|x y [Hu Ht] Hf']; subst. cbn [fst snd] in Hu, Ht.
    unfold bind.
    destruct (Collab.accept_member repo (u, t) w tr) as [[y|e] tr1] eqn:Ea;
      cbv beta iota; [|discriminate].
    destruct (mapM (Collab.accept_member repo) pairs w tr1) as [[ys|e] tr2] eqn:Em;
      cbv beta iota; [|discriminate].
    unfold ret. cbn [fst]. intros H. injection H as <-. cbn [map fst].
    rewrite (accept_member_name repo u t w tr y Hu Ht) by (rewrite Ea; reflexivity).
    f_equal. apply (IH tr1); [exact Hf'|]. rewrite Em. reflexivity.
Qed.

Lemma map_fst_combine {A B} (l1 : list A) (l2 : list B) :
  map fst (combine l1 l2) = firstn (length l2) l1.
Proof.
  revert l2. induction l1 as [|a l1 IH]; intros [|b l2]; cbn; try reflexivity.
  f_equal. apply IH.
Qed.

Lemma in_tl {A} (x : A) l : In x (tl l) -> In x l.
Proof. destruct l; cbn; auto. Qed.

Lemma getenv_list_nonempty get x : In x (getenv_list get) -> x <> "".
Proof. intros H. apply in_getenv_list in H. destruct H as [i [_ [_ H]]]. exact H. Qed.

(** When the collaborator script completes, Step 2 has one outcome per member
    of [USERS[1:]] that has a token in [TOKENS[1:]], in order, named after
    that member; members beyond the tokens get no accept attempt. *)
Theorem collab_outcome_per_paired_member cfg w outs :
  fst (Collab.main cfg w) = Ok outs ->
  map (option_map fst) outs
  = map Some (firstn (length (tl (Collab.TOKENS cfg))) (tl (Collab.USERS cfg))).
Proof.
  unfold Collab.main, Collab.setup_collaborators.
  pose proof (getenv_list_nonempty (env_pat cfg)) as Ht.
  pose proof (getenv_list_nonempty (env_username cfg)) as Hu.
  fold (Collab.TOKENS cfg) in Ht. fold (Collab.USERS cfg) in Hu.
  destruct (Collab.TOKENS cfg) as [|t ts]; [discriminate|].
  unfold bind at 1, ret at 1; cbv beta iota.
  unfold bind at 1. rewrite invite_phase_trace.
  unfold bind, sleep. cbv beta iota. cbn [tl] in *. intros H.
  assert (HF : Forall (fun p => fst p <> "" /\ snd p <> "") (combine (tl (Collab.USERS cfg)) ts)).
  { apply Forall_forall. intros [u t'] Hin. cbn [fst snd]. split.
    + apply Hu, in_tl. apply (in_combine_l _ _ _ _ Hin).
    + apply Ht. right. apply (in_combine_r _ _ _ _ Hin). }
  rewrite (accept_phase_names _ _ _ _ _ HF H).
  rewrite <- map_fst_combine, map_map. reflexivity.
Qed.

Lemma collab_outcome_per_paired_member_witness :
  fst (Collab.main Sample.cfg_extra_user Sample.w_ok) = Ok [Some ("bob", Collab.Accepted)] /\
  map (option_map fst) [Some ("bob", Collab.Accepted)]
  = map Some (firstn (length (tl (Collab.TOKENS Sample.cfg_extra_user)))
                     (tl (Collab.USERS Sample.cfg_extra_user))).
Proof.
  assert (H : fst (Collab.main Sample.cfg_extra_user Sample.w_ok) = Ok [Some ("bob", Collab.Accepted)])
    by (vm_compute; reflexivity).
  split; [exact H|]. exact (collab_outcome_per_paired_member _ _ _ H).
Defined.

(** An invitation entry for the target without an [id] field is still
    accepted: the PATCH goes to [/user/repository_invitations/None]. *)
Theorem accept_without_id_patches_none t repo kv r rest w tr :
  obj_lookup "repository" kv = Some (JObj r) ->
  obj_lookup "full_name" r = Some (JStr repo) ->
  obj_lookup "id" kv = None ->
  exists accepted,
    Collab.scan_invites t repo (JObj kv :: rest) w tr
    = (Ok accepted,
       tr ++ [ENet (mkRequest t "PATCH" "https://api.github.com/user/repository_invitations/None" None)]).
Proof.
  intros Hr Hn Hi. cbn [Collab.scan_invites].
  unfold bind at 1 2, Collab.py_get at 1. rewrite Hr. cbv beta iota delta [ret].
  unfold Collab.py_get. rewrite Hn. cbv beta iota delta [ret].
  unfold Collab.name_is. rewrite String.eqb_refl.
  unfold bind at 1. rewrite Hi. cbv beta iota delta [ret].
  unfold bind.
  destruct (call_get_patch t (Collab.accept_endpoint JNull) "PATCH" None w tr (or_intror eq_refl))
    as [v E].
  rewrite E. destruct v; eexists; reflexivity.
Qed.

Lemma accept_without_id_patches_none_witness :
  exists accepted,
    Collab.scan_invites "t2" "admin/hapus"
      [JObj [("repository", JObj [("full_name", JStr "admin/hapus")])]] Sample.w_ok []
    = (Ok accepted,
       [] ++ [ENet (mkRequest "t2" "PATCH" "https://api.github.com/user/repository_invitations/None" None)]).
Proof.
  apply (accept_without_id_patches_none "t2" "admin/hapus"
           [("repository", JObj [("full_name", JStr "admin/hapus")])]
           [("full_name", JStr "admin/hapus")] [] Sample.w_ok []); reflexivity.
Defined.

(** If the preflight's [GET /user] fails in transport, the secret script
    prints the error and ends normally after that single request. *)
Theorem secrets_preflight_transport_failure cfg w :
  set_var (Secrets.ADMIN_TOKEN cfg) = true ->
  w_srv w 0 (preflight_request (secrets_admin_token cfg)) = Transport ->
  Secrets.main cfg w = (Ok None, [ENet (preflight_request (secrets_admin_token cfg))]).
Proof.
  intros Hs Ht. destruct (secrets_tokens_pat1 cfg Hs) as [rest Er].
  unfold Secrets.main. rewrite Hs. cbn [negb]. fold (secrets_admin_token cfg). rewrite Er.
  unfold try_except, Secrets.check_permissions, requests_call, send, bind.
  cbv beta iota zeta.
  change (mkRequest (secrets_admin_token cfg) "GET" Secrets.user_url None)
    with (preflight_request (secrets_admin_token cfg)).
  cbn [net_count]. rewrite Ht. reflexivity.
Qed.

Lemma secrets_preflight_transport_failure_witness :
  Secrets.main Sample.cfg_two (Sample.w_transient 0) = (Ok None, [ENet (preflight_request "t1")]).
Proof.
  apply (secrets_preflight_transport_failure Sample.cfg_two (Sample.w_transient 0));
    vm_compute; reflexivity.
Defined.
